(** * Hybrid security data model: the eight checks of [analysis.py]
    over the stores seeded by [setup_all_databases.py].

    The row store (SQLite) is embedded as lists of records, one record type
    per table of [create_tables_sql]; the document store (MongoDB) as lists
    of documents.  Each SQL statement is embedded clause by clause
    (FROM/JOIN, WHERE, SELECT) with SQL's three-valued logic, each
    aggregation pipeline stage by stage, and the pandas post-processing of
    use case 6 column by column.  The two scripts themselves are embedded
    as programs of a small output/exception monad. *)

From Stdlib Require Import ZArith List String Ascii Bool Lia Floats.
From Stdlib Require Import Sorting.Sorted Sorting.Permutation DecimalString.
From stdpp Require Import gmap strings.
Import ListNotations.
Local Open Scope string_scope.
Set Warnings "-inexact-float".


(** stdpp freezes [String.append] under [simpl]; the proofs below unfold it
    on constructors. *)
#[local] Arguments String.append !s1 s2 : simpl nomatch.

(* ===================================================================== *)
(** * Part I: definitions *)
(* ===================================================================== *)

(** ** SQL values and three-valued logic *)

Module Sql.

(** A truth value of SQL: [None] is NULL. *)
Definition tv : Type := option bool.

Definition or3 (a b : tv) : tv :=
  match a, b with
  | Some true, _ | _, Some true => Some true
  | Some false, Some false => Some false
  | _, _ => None
  end.

Definition and3 (a b : tv) : tv :=
  match a, b with
  | Some false, _ | _, Some false => Some false
  | Some true, Some true => Some true
  | _, _ => None
  end.

(** [a != 'lit'] on a nullable TEXT column (BINARY collation). *)
Definition ne (a : option string) (lit : string) : tv :=
  option_map (fun s => negb (String.eqb s lit)) a.

(** [a < 'lit'] and [a >= 'lit'] on TEXT: bytewise comparison. *)
Definition lt (a : option string) (lit : string) : tv :=
  option_map (fun s => String.ltb s lit) a.

Definition ge (a : option string) (lit : string) : tv :=
  option_map (fun s => String.leb lit s) a.

(** [a IN ('l1', ..., 'ln')] with literal, non-NULL list members. *)
Definition is_in (a : option string) (lits : list string) : tv :=
  option_map (fun s => existsb (String.eqb s) lits) a.

Definition not_in (a : option string) (lits : list string) : tv :=
  option_map negb (is_in a lits).

(** A WHERE clause keeps a row only when its condition is TRUE. *)
Definition holds (c : tv) : bool :=
  match c with Some true => true | _ => false end.

(** [sqlite3Tolower]: the ASCII-only case folding of the LIKE operator. *)
Definition tolower (c : ascii) : ascii :=
  let n := nat_of_ascii c in
  if (65 <=? n)%nat && (n <=? 90)%nat then ascii_of_nat (n + 32) else c.

(** [s LIKE p] for non-NULL TEXT operands, without ESCAPE and with the
    default [case_sensitive_like = OFF] (the scripts never set the pragma):
    [%] matches any run of characters, [_] any one character, every other
    pattern character matches itself up to ASCII case.  Characters are
    bytes here, so [_] is exact for single-byte characters. *)
Fixpoint like (p s : string) : bool :=
  match p with
  | EmptyString => match s with EmptyString => true | String _ _ => false end
  | String c p' =>
      if Ascii.eqb c "%" then
        (fix any_run (s : string) : bool :=
           like p' s ||
           match s with
           | EmptyString => false
           | String _ s' => any_run s'
           end) s
      else
        match s with
        | EmptyString => false
        | String d s' =>
            (Ascii.eqb c "_" || Ascii.eqb (tolower c) (tolower d)) && like p' s'
        end
  end.

(** [FROM a JOIN b ON on]: the inner join, as nested loops. *)
Definition join {A B : Type} (a : list A) (b : list B) (on : A -> B -> bool)
  : list (A * B) :=
  flat_map (fun x => map (pair x) (List.filter (on x) b)) a.

End Sql.

(** ** strftime('%H', ...) *)

Definition is_digit (c : ascii) : bool :=
  let n := nat_of_ascii c in (48 <=? n)%nat && (n <=? 57)%nat.

Definition digit (c : ascii) : nat := nat_of_ascii c - 48.

Definition two_digits (a b : ascii) (max : nat) : option nat :=
  if is_digit a && is_digit b then
    let n := 10 * digit a + digit b in
    if (n <=? max)%nat then Some n else None
  else None.

(** The hour field of a TEXT timestamp written as [YYYY-MM-DD HH:MM:SS],
    the layout of every timestamp the seeding script inserts, with the
    fields in ranges in which SQLite takes them as they stand: months 01
    to 12, days 01 to 31, hours 00 to 23, minutes and seconds 00 to 59.
    For such a text [strftime('%H', ...)] prints the hour field.  [None]:
    the text is not of this layout.  SQLite's date parser accepts more (the
    hour 24, a T for the blank, no seconds or fractions of them, a zone
    suffix, a bare date or time, a julian day number, the word now); what
    the engine reads from those is outside this model, which gives no
    answer for them rather than a NULL. *)
Definition hour_of (ts : string) : option nat :=
  match list_ascii_of_string ts with
  | [y1; y2; y3; y4; d1; m1; m2; d2; a1; a2; sp; h1; h2; c1; n1; n2; c2; s1; s2] =>
      if forallb is_digit [y1; y2; y3; y4]
         && Ascii.eqb d1 "-" && Ascii.eqb d2 "-" && Ascii.eqb sp " "
         && Ascii.eqb c1 ":" && Ascii.eqb c2 ":" then
        match two_digits m1 m2 12, two_digits a1 a2 31,
              two_digits n1 n2 59, two_digits s1 s2 59 with
        | Some mo, Some da, Some _, Some _ =>
            if (1 <=? mo)%nat && (1 <=? da)%nat then two_digits h1 h2 23
            else None
        | _, _, _, _ => None
        end
      else None
  | _ => None
  end.

(** [%02d] for a number below 100; [%H] prints the hour field this way. *)
Definition fmt02 (n : nat) : string :=
  String (ascii_of_nat (48 + n / 10)) (String (ascii_of_nat (48 + n mod 10)) "").

(** [strftime('%H', ts)] for a timestamp of the layout; [None] outside
    it. *)
Definition strftime_H (ts : string) : option string :=
  option_map fmt02 (hour_of ts).

(** [%04d] for a number below 10000. *)
Definition fmt04 (n : nat) : string := fmt02 (n / 100) ++ fmt02 (n mod 100).

(** A timestamp of the layout, written from its fields. *)
Definition stamp (Y M D h m s : nat) : string :=
  fmt04 Y ++ "-" ++ fmt02 M ++ "-" ++ fmt02 D ++ " "
  ++ fmt02 h ++ ":" ++ fmt02 m ++ ":" ++ fmt02 s.


(** ** The tables of [create_tables_sql] the checks read *)

Module Employee_Data.
Record row : Type := {
  employee_id : Z;
  first_name : string;
  last_name : string;
  Department : string;
  email : string;
  role_ID : Z
}.
End Employee_Data.

Module File_Data.
Record row : Type := {
  file_id : Z;
  file_name : string
}.
End File_Data.

Module File_Access.
Record row : Type := {
  access_id : Z;
  employee_id : Z;
  access_type_id : Z;
  timestamp : string;
  file_id : Z
}.
End File_Access.

(** Only [device_id] is declared NOT NULL (as the primary key). *)
Module Endpoint_Security.
Record row : Type := {
  device_id : Z;
  employee_id : option Z;
  os_name : option string;
  os_version : option string;
  last_patch_date : option string;
  antivirus_status : option string
}.
End Endpoint_Security.

Record database : Type := {
  Employee_Data_t : list Employee_Data.row;
  File_Data_t : list File_Data.row;
  File_Access_t : list File_Access.row;
  Endpoint_Security_t : list Endpoint_Security.row
}.

(** [e.first_name || ' ' || e.last_name] *)
Definition full_name (e : Employee_Data.row) : string :=
  Employee_Data.first_name e ++ " " ++ Employee_Data.last_name e.

(** ** Use case 1: [query_insider] *)

Definition insider_on (f : File_Access.row) (e : Employee_Data.row) : bool :=
  (File_Access.employee_id f =? Employee_Data.employee_id e)%Z.

(** The WHERE clause on a joined row; no answer when the timestamp is
    outside the layout of [hour_of]. *)
Definition insider_where (r : File_Access.row * Employee_Data.row)
  : option bool :=
  H ← strftime_H (File_Access.timestamp (fst r));
  Some (Sql.holds (Sql.or3 (Sql.lt (Some H) "08") (Sql.ge (Some H) "20"))).

Definition insider_select (r : File_Access.row * Employee_Data.row)
  : string * string * string :=
  (full_name (snd r), Employee_Data.Department (snd r),
   File_Access.timestamp (fst r)).

(** The rows that a condition keeps, when it has an answer on each. *)
Fixpoint kept {A : Type} (cond : A -> option bool) (rows : list A)
  : option (list A) :=
  match rows with
  | [] => Some []
  | r :: rest =>
      b ← cond r;
      rest' ← kept cond rest;
      Some (if b : bool then r :: rest' else rest')
  end.

(** The result set of the query; [None] when a joined access event has a
    timestamp outside the layout. *)
Definition query_insider (db : database)
  : option (list (string * string * string)) :=
  rows ← kept insider_where
            (Sql.join (File_Access_t db) (Employee_Data_t db) insider_on);
  Some (map insider_select rows).

(** ** Use case 7: [query_rbac] *)

Definition rbac_on_employee (fa : File_Access.row) (e : Employee_Data.row) : bool :=
  (File_Access.employee_id fa =? Employee_Data.employee_id e)%Z.

Definition rbac_on_file (r : File_Access.row * Employee_Data.row)
  (f : File_Data.row) : bool :=
  (File_Access.file_id (fst r) =? File_Data.file_id f)%Z.

Definition rbac_where
  (r : File_Access.row * Employee_Data.row * File_Data.row) : bool :=
  let e := snd (fst r) in
  let f := snd r in
  Sql.holds
    (Sql.and3
       (Sql.not_in (Some (Employee_Data.Department e)) ["Finance"; "HR"])
       (Sql.or3 (Some (Sql.like "%Budget%" (File_Data.file_name f)))
               (Some (Sql.like "%Payroll%" (File_Data.file_name f))))).

Definition rbac_select
  (r : File_Access.row * Employee_Data.row * File_Data.row)
  : string * string * string :=
  (full_name (snd (fst r)), Employee_Data.Department (snd (fst r)),
   File_Data.file_name (snd r)).

Definition query_rbac (db : database) : list (string * string * string) :=
  map rbac_select
    (List.filter rbac_where
       (Sql.join
          (Sql.join (File_Access_t db) (Employee_Data_t db) rbac_on_employee)
          (File_Data_t db) rbac_on_file)).

(** ** Use case 8: [query_vuln] *)

(** [s.employee_id = e.employee_id]: NULL on a NULL owner, so no match. *)
Definition vuln_on (s : Endpoint_Security.row) (e : Employee_Data.row) : bool :=
  match Endpoint_Security.employee_id s with
  | Some i => (i =? Employee_Data.employee_id e)%Z
  | None => false
  end.

Definition vuln_where (r : Endpoint_Security.row * Employee_Data.row) : bool :=
  let s := fst r in
  Sql.holds
    (Sql.or3 (Sql.ne (Endpoint_Security.antivirus_status s) "Active")
            (Sql.is_in (Endpoint_Security.os_version s) ["XP"; "7"])).

Definition vuln_select (r : Endpoint_Security.row * Employee_Data.row)
  : string * option string * option string * option string :=
  (full_name (snd r), Endpoint_Security.os_name (fst r),
   Endpoint_Security.os_version (fst r),
   Endpoint_Security.antivirus_status (fst r)).

Definition query_vuln (db : database)
  : list (string * option string * option string * option string) :=
  map vuln_select
    (List.filter vuln_where
       (Sql.join (Endpoint_Security_t db) (Employee_Data_t db) vuln_on)).

(** ** Seed rows of the row store used in the examples *)

Definition employee (i : Z) (f l d : string) : Employee_Data.row :=
  {| Employee_Data.employee_id := i; Employee_Data.first_name := f;
     Employee_Data.last_name := l; Employee_Data.Department := d;
     Employee_Data.email := ""; Employee_Data.role_ID := 0 |}.


Definition endpoint (i : Z) (ver status : option string) : Endpoint_Security.row :=
  {| Endpoint_Security.device_id := i;
     Endpoint_Security.employee_id := Some i;
     Endpoint_Security.os_name := Some "Windows";
     Endpoint_Security.os_version := ver;
     Endpoint_Security.last_patch_date := None;
     Endpoint_Security.antivirus_status := status |}.


(** The three endpoints of the spec's examples, owned by employees 1 to 3. *)
Definition endpoint_db : database :=
  {| Employee_Data_t :=
       [employee 1 "Alice" "Johnson" "Finance"; employee 2 "Bob" "Smith" "IT";
        employee 3 "Charlie" "Brown" "HR"];
     File_Data_t := [];
     File_Access_t := [];
     Endpoint_Security_t :=
       [endpoint 1 (Some "11") (Some "Active");
        endpoint 2 (Some "11") (Some "Disabled");
        endpoint 3 (Some "XP") (Some "Active")] |}.

(** An endpoint of employee 1 on version 11 whose antivirus status was
    never recorded. *)
Definition unrecorded_status_db : database :=
  {| Employee_Data_t := [employee 1 "Alice" "Johnson" "Finance"];
     File_Data_t := [];
     File_Access_t := [];
     Endpoint_Security_t := [endpoint 1 (Some "11") None] |}.

(** ** Substrings, as the RBAC filter is described and as LIKE decides it *)








Definition file (i : Z) (n : string) : File_Data.row :=
  {| File_Data.file_id := i; File_Data.file_name := n |}.



(** ** The document store *)

(** A scalar BSON value as Python sees it; [SNull] is [None]. *)
Inductive scalar : Type :=
| SNull
| SStr (s : string)
| SInt (n : Z).

(** The value of a field: a scalar, or an embedded document (a Python
    [dict]) whose own fields are scalars. *)
Inductive value : Type :=
| Scalar (v : scalar)
| Dict (d : gmap string scalar).

Definition scalar_eqb (a b : scalar) : bool :=
  match a, b with
  | SNull, SNull => true
  | SStr s, SStr t => String.eqb s t
  | SInt n, SInt m => (n =? m)%Z
  | _, _ => false
  end.

(** A document of [Access_logs].  The collection is schemaless; the model
    fixes what the checks rely on without a guard of their own (a string
    [_ID], a datetime [TIMESTAMP], in milliseconds as MongoDB stores it) and
    leaves free what use case 6 guards: [LOCATION] may be absent ([None]),
    a scalar, or a dict with or without the key "Country".  An absent or
    null [STATUS] is [SNull]. *)
Module Access_logs.
Record doc : Type := {
  _ID : string;
  TIMESTAMP : Z;
  LOCATION : option value;
  STATUS : scalar
}.
End Access_logs.

(** A document of [Phishing_attacks]; [None] is an absent field. *)
Module Phishing_attacks.
Record doc : Type := {
  PHISHING_ID : string;
  _ID : string;
  ANOMALY_SCORE : option float;
  LINK_CLICKED : option bool;
  EMAIL_SUBJECT : string;
  EMAIL_SENDER : string
}.
End Phishing_attacks.

(** ** Sorting *)

Section Insertion_sort.
Context {A : Type} (le : A -> A -> bool).

Fixpoint insert_sorted (x : A) (l : list A) : list A :=
  match l with
  | [] => [x]
  | y :: l' => if le x y then x :: y :: l' else y :: insert_sorted x l'
  end.

(** A stable sort: among rows that compare equal, an earlier row stays
    earlier. *)
Definition stable_sort (l : list A) : list A :=
  fold_right insert_sorted [] l.

End Insertion_sort.

(** ** Use case 3: [pipeline] *)

(** [{"$match": {"STATUS": "Failed"}}] *)
Definition is_Failed (d : Access_logs.doc) : bool :=
  scalar_eqb (Access_logs.STATUS d) (SStr "Failed").

(** [{"$group": {"_id": "$_ID", "Failed_Count": {"$sum": 1}}}]: one counter
    per subject id. *)
Definition group_count (docs : list Access_logs.doc) : gmap string nat :=
  fold_right
    (fun d m => <[Access_logs._ID d := S (default 0 (m !! Access_logs._ID d))]> m)
    ∅ docs.

(** [{"$match": {"Failed_Count": {"$gte": 2}}}] *)
Definition gte_2 (r : string * nat) : bool := (2 <=? snd r)%nat.

(** [{"$sort": {"Failed_Count": -1}}] *)
Definition count_desc (a b : string * nat) : bool := (snd b <=? snd a)%nat.

(** The aggregation; a result row is [(_id, Failed_Count)].  [$group]
    emits its groups in no specified order, here that of [map_to_list],
    and [$sort] is taken to keep that order between equal counts;
    [pipeline_result] below admits every order the server may choose. *)
Definition pipeline (docs : list Access_logs.doc) : list (string * nat) :=
  stable_sort count_desc
    (List.filter gte_2
       (map_to_list (group_count (List.filter is_Failed docs)))).

(** The number of "Failed" documents of one subject. *)
Definition failed_logins (id : string) (docs : list Access_logs.doc) : nat :=
  length
    (List.filter (fun d => String.eqb (Access_logs._ID d) id && is_Failed d) docs).

Definition login (id : string) (ts : Z) (status : string) : Access_logs.doc :=
  {| Access_logs._ID := id; Access_logs.TIMESTAMP := ts;
     Access_logs.LOCATION := None; Access_logs.STATUS := SStr status |}.

(** EMP001 fails twice, EMP002 three times, EMP003 once. *)
Definition failed_logins_example : list Access_logs.doc :=
  [login "EMP001" 1 "Failed"; login "EMP002" 2 "Failed";
   login "EMP003" 3 "Failed"; login "EMP002" 4 "Failed";
   login "EMP001" 5 "Successful"; login "EMP001" 6 "Failed";
   login "EMP002" 7 "Failed"; login "EMP003" 8 "Successful"].

(** What the server may answer to the pipeline.  [$group] emits one row
    per group in an order of its own, and [$sort] leaves rows of equal
    [Failed_Count] in any order: an answer is an arrangement of the rows of
    the groups with two failures or more in which the counts never
    increase.  [pipeline] is one of them. *)
Definition pipeline_result (docs : list Access_logs.doc)
  (result : list (string * nat)) : Prop :=
  Permutation result
    (List.filter gte_2
       (map_to_list (group_count (List.filter is_Failed docs)))) /\
  StronglySorted (fun a b => count_desc a b = true) result.

(** Two subjects with two failed logins each. *)
Definition tied_logins : list Access_logs.doc :=
  [login "EMP001" 1 "Failed"; login "EMP002" 2 "Failed";
   login "EMP001" 3 "Failed"; login "EMP002" 4 "Failed"].

(** ** Use case 4: [query_phish] *)

(** [{"ANOMALY_SCORE": {"$gt": 0.8}, "LINK_CLICKED": True}]: both
    conditions on one document; an absent field matches neither. *)
Definition query_phish (d : Phishing_attacks.doc) : bool :=
  match Phishing_attacks.ANOMALY_SCORE d, Phishing_attacks.LINK_CLICKED d with
  | Some score, Some clicked => PrimFloat.ltb 0.8 score && clicked
  | _, _ => false
  end.

Definition count_documents {A : Type} (query : A -> bool) (coll : list A) : nat :=
  length (List.filter query coll).

Definition victim_count (coll : list Phishing_attacks.doc) : nat :=
  count_documents query_phish coll.

Definition phishing (score : float) (clicked : bool) : Phishing_attacks.doc :=
  {| Phishing_attacks.PHISHING_ID := "PH001";
     Phishing_attacks._ID := "EMP001";
     Phishing_attacks.ANOMALY_SCORE := Some score;
     Phishing_attacks.LINK_CLICKED := Some clicked;
     Phishing_attacks.EMAIL_SUBJECT := "Urgent Update";
     Phishing_attacks.EMAIL_SENDER := "admin@banking.com" |}.

(** A document the high-risk count takes, in the words of the spec: a score
    strictly above 0.8 and the link clicked. *)
Definition high_risk (d : Phishing_attacks.doc) : Prop :=
  exists score,
    Phishing_attacks.ANOMALY_SCORE d = Some score /\
    PrimFloat.ltb 0.8 score = true /\
    Phishing_attacks.LINK_CLICKED d = Some true.

(** The number of documents of one subject. *)
Definition occurrences (id : string) (docs : list Access_logs.doc) : nat :=
  length (List.filter (fun d => String.eqb (Access_logs._ID d) id) docs).

(** ** Use case 6: impossible travel *)

(** What a Python expression does: raise an exception (here its message)
    or return a value. *)
Inductive outcome (A : Type) : Type :=
| Raised (e : string)
| Returned (a : A).
Arguments Raised {A} e.
Arguments Returned {A} a.

Definition isnull (v : scalar) : bool :=
  match v with SNull => true | _ => false end.

Definition notnull (v : scalar) : bool := negb (isnull v).

(** [!=] between two object columns: a null on either side compares as
    different, other values by Python's [!=]. *)
Definition ne (a b : scalar) : bool :=
  isnull a || isnull b || negb (scalar_eqb a b).

(** [lambda x: x.get('Country') if isinstance(x, dict) else None].  The
    cell of a document without LOCATION is NaN, which is no dict. *)
Definition get_Country (x : option value) : scalar :=
  match x with
  | Some (Dict d) => default SNull (d !! "Country")
  | Some (Scalar _) | None => SNull
  end.

(** The column [df_logs['Country']], row by row. *)
Definition Country (r : Access_logs.doc) : scalar :=
  get_Country (Access_logs.LOCATION r).

(** [pd.DataFrame(logs)] has a column LOCATION when some document has the
    field; [df_logs['LOCATION']] is a KeyError otherwise. *)
Definition has_LOCATION (logs : list Access_logs.doc) : bool :=
  existsb (fun d => match Access_logs.LOCATION d with Some _ => true | None => false end)
    logs.

(** The order of [sort_values(by=['_ID', 'TIMESTAMP'])]. *)
Definition by_ID_TIMESTAMP (a b : Access_logs.doc) : bool :=
  match String.compare (Access_logs._ID a) (Access_logs._ID b) with
  | Lt => true
  | Eq => (Access_logs.TIMESTAMP a <=? Access_logs.TIMESTAMP b)%Z
  | Gt => false
  end.

Definition sort_values (df : list Access_logs.doc) : list Access_logs.doc :=
  stable_sort by_ID_TIMESTAMP df.

Definition same_ID (a b : Access_logs.doc) : bool :=
  String.eqb (Access_logs._ID a) (Access_logs._ID b).

(** [df_logs.groupby('_ID')['Country'].shift(1)]: for each row the Country
    of the row before it within its group, null for the first row of a
    group.  [seen] holds the rows above, nearest first. *)
Fixpoint shift_Country (seen df : list Access_logs.doc) : list scalar :=
  match df with
  | [] => []
  | r :: rest =>
      match List.find (same_ID r) seen with
      | Some p => Country p
      | None => SNull
      end :: shift_Country (r :: seen) rest
  end.

(** The frame with its column Prev_Country: a row is a document (with its
    Country) and its Prev_Country. *)
Definition with_Prev_Country (df : list Access_logs.doc)
  : list (Access_logs.doc * scalar) :=
  combine df (shift_Country [] df).

(** [(df_logs['Country'] != df_logs['Prev_Country']) &
     (df_logs['Prev_Country'].notnull())] *)
Definition changed (r : Access_logs.doc * scalar) : bool :=
  ne (Country (fst r)) (snd r) && notnull (snd r).

(** The frame [impossible], for a frame that has the column LOCATION. *)
Definition impossible (logs : list Access_logs.doc)
  : list (Access_logs.doc * scalar) :=
  List.filter changed (with_Prev_Country (sort_values logs)).

Inductive travel_report : Type :=
| No_log_data
| No_patterns
| Alert (impossible : list (Access_logs.doc * scalar)).

(** The body of the [try] of use case 6 after the read, up to what it
    prints. *)
Definition impossible_travel (logs : list Access_logs.doc)
  : outcome travel_report :=
  match logs with
  | [] => Returned No_log_data
  | _ :: _ =>
      if has_LOCATION logs then
        match impossible logs with
        | [] => Returned No_patterns
        | r :: rs => Returned (Alert (r :: rs))
        end
      else Raised "'LOCATION'"
  end.

Definition of_subject (s : string) (r : Access_logs.doc) : bool :=
  String.eqb (Access_logs._ID r) s.

(** The flagged rows of one subject. *)
Definition jumps_of (s : string) (logs : list Access_logs.doc)
  : list (Access_logs.doc * scalar) :=
  List.filter (fun r => of_subject s (fst r)) (impossible logs).

(** Each event but the first, paired with the event just before it. *)
Definition adjacent (g : list Access_logs.doc)
  : list (Access_logs.doc * Access_logs.doc) :=
  combine (tl g) g.

(** The flagged rows of one subject in the words of the spec: the events,
    in the subject's time order [g], whose country differs from that of
    the event just before. *)
Definition country_changes (g : list Access_logs.doc)
  : list (Access_logs.doc * scalar) :=
  map (fun p => (fst p, Country (snd p)))
    (List.filter (fun p => negb (scalar_eqb (Country (fst p)) (Country (snd p))))
       (adjacent g)).

Definition access_log (id : string) (ts : Z) (loc : option value)
  : Access_logs.doc :=
  {| Access_logs._ID := id; Access_logs.TIMESTAMP := ts;
     Access_logs.LOCATION := loc; Access_logs.STATUS := SStr "Successful" |}.

Definition location (city country : string) : gmap string scalar :=
  {[ "City" := SStr city; "Country" := SStr country ]}.

(** One subject: a login whose location has no country, then one from the
    UK. *)
Definition unknown_then_UK : list Access_logs.doc :=
  [access_log "EMP001" 1 (Some (Dict {[ "City" := SStr "London" ]}));
   access_log "EMP001" 2 (Some (Dict (location "London" "UK")))].

(** A collection in which no document has a LOCATION. *)
Definition without_LOCATION : list Access_logs.doc :=
  [access_log "EMP001" 1 None].

(** One subject: the UK, then three logins without a country (LOCATION
    absent, a string, a dict without "Country"), then the UK again. *)
Definition partly_located : list Access_logs.doc :=
  [access_log "EMP001" 1 (Some (Dict (location "London" "UK")));
   access_log "EMP001" 2 None;
   access_log "EMP001" 3 (Some (Scalar (SStr "unknown")));
   access_log "EMP001" 4 (Some (Dict {[ "City" := SStr "Paris" ]}));
   access_log "EMP001" 5 (Some (Dict (location "London" "UK")))].

(** Seven logins of one subject, from the UK and Japan in turn. *)
Definition seven_logins : list Access_logs.doc :=
  [access_log "EMP001" 1 (Some (Dict (location "London" "UK")));
   access_log "EMP001" 2 (Some (Dict (location "Tokyo" "Japan")));
   access_log "EMP001" 3 (Some (Dict (location "London" "UK")));
   access_log "EMP001" 4 (Some (Dict (location "Tokyo" "Japan")));
   access_log "EMP001" 5 (Some (Dict (location "London" "UK")));
   access_log "EMP001" 6 (Some (Dict (location "Tokyo" "Japan")));
   access_log "EMP001" 7 (Some (Dict (location "London" "UK")))].

(** ** The access logs the seeding script inserts *)

(** [str(i)] for a natural number. *)
Definition str (i : nat) : string := NilZero.string_of_uint (Nat.to_uint i).

(** [s.zfill(width)] *)
Definition zfill (width : nat) (s : string) : string :=
  String.concat "" (repeat "0" (width - String.length s)) ++ s.

Definition employee_ids : list string :=
  map (fun i => "EMP" ++ zfill 3 (str i)) (seq 1 60).

Definition vendors_ids : list string :=
  map (fun i => "VEND" ++ zfill 2 (str i)) (seq 1 19).

Definition all_ids : list string := employee_ids ++ vendors_ids.

Definition statuses : list string := ["Successful"; "Failed"].

Definition locations : list (gmap string scalar) :=
  [location "London" "UK"; location "Manchester" "UK";
   location "Berlin" "Germany"; location "Paris" "France";
   location "New York" "USA"; location "Tokyo" "Japan"].

(** [timedelta(hours=n)] and [timedelta(days=n)], in milliseconds. *)
Definition hours (n : Z) : Z := (n * 3600000)%Z.
Definition days (n : Z) : Z := (n * 86400000)%Z.

(** What one turn of the bulk loop draws: the clock reading of
    [datetime.now()] and the four random choices. *)
Record draw : Type := {
  now : Z;
  choice_id : string;
  randint_days : Z;
  choice_location : gmap string scalar;
  choice_status : string
}.

(** What a seeding run reads from the clock and the random generator: the
    two clock readings of the hand-written entries, then the draws of the
    bulk loop. *)
Record seeding : Type := {
  now_London : Z;
  now_Tokyo : Z;
  bulk : list draw
}.

Definition London_entry (r : seeding) : Access_logs.doc :=
  {| Access_logs._ID := "EMP001";
     Access_logs.TIMESTAMP := now_London r;
     Access_logs.LOCATION := Some (Dict (location "London" "UK"));
     Access_logs.STATUS := SStr "Successful" |}.

Definition Tokyo_entry (r : seeding) : Access_logs.doc :=
  {| Access_logs._ID := "EMP001";
     Access_logs.TIMESTAMP := (now_Tokyo r + hours 1)%Z;
     Access_logs.LOCATION := Some (Dict (location "Tokyo" "Japan"));
     Access_logs.STATUS := SStr "Successful" |}.

Definition bulk_entry (d : draw) : Access_logs.doc :=
  {| Access_logs._ID := choice_id d;
     Access_logs.TIMESTAMP := (now d - days (randint_days d))%Z;
     Access_logs.LOCATION := Some (Dict (choice_location d));
     Access_logs.STATUS := SStr (choice_status d) |}.

(** [access_logs_data] as [insert_many] receives it. *)
Definition access_logs_data (r : seeding) : list Access_logs.doc :=
  London_entry r :: Tokyo_entry r :: map bulk_entry (bulk r).

(** A run the script can make: the clock does not go backwards, the loop
    turns 200 times, and each draw is within its range. *)
Definition well_drawn (r : seeding) : Prop :=
  (now_London r <= now_Tokyo r)%Z /\
  length (bulk r) = 200 /\
  List.Forall
    (fun d =>
       (now_Tokyo r <= now d)%Z /\
       In (choice_id d) all_ids /\
       (0 <= randint_days d <= 30)%Z /\
       In (choice_location d) locations /\
       In (choice_status d) statuses)
    (bulk r).

Definition drawn (id : string) (ago : Z) (loc : gmap string scalar) : draw :=
  {| now := 0; choice_id := id; randint_days := ago;
     choice_location := loc; choice_status := "Successful" |}.

(** A run whose first draw is EMP001 in Berlin one day ago; the other 199
    draws are vendor logins. *)
Definition run_with_EMP001_drawn : seeding :=
  {| now_London := 0; now_Tokyo := 0;
     bulk := drawn "EMP001" 1 (location "Berlin" "Germany")
             :: repeat (drawn "VEND01" 3 (location "Paris" "France")) 199 |}.

(** A run in which no draw is EMP001. *)
Definition run_without_EMP001_drawn : seeding :=
  {| now_London := 0; now_Tokyo := 0;
     bulk := repeat (drawn "VEND01" 3 (location "Paris" "France")) 200 |}.

(** ** The two scripts as programs *)

(** A value in a result set of the row store. *)
Inductive cell : Type :=
| Null
| Text (s : string)
| Integer (n : Z)
| Real (x : float).

(** A pandas frame: its column labels and its rows. *)
Record DataFrame : Type := {
  columns : list string;
  rows : list (list cell)
}.

(** [df.empty]: some axis has length 0. *)
Definition empty (df : DataFrame) : bool :=
  match columns df, rows df with
  | _ :: _, _ :: _ => false
  | _, _ => true
  end.

(** What [print] writes: a line of text, or the rendering
    [df.to_string(index=False)] of a frame (for a frame without rows pandas
    renders the words "Empty DataFrame" with the column labels and an
    empty index). *)
Inductive printed : Type :=
| Line (s : string)
| Table (df : DataFrame).

(** What a statement can raise: an [Exception], caught by
    [except Exception], or the [SystemExit] of [exit()] and [sys.exit()],
    which that clause lets through. *)
Inductive raised : Type :=
| Exception (e : string)
| SystemExit (code : option Z).

(** The state of a running script: what it has printed, and whether the
    name [mongoclient] is bound. *)
Record process : Type := {
  stdout : list printed;
  mongoclient : bool
}.

Definition script (A : Type) : Type := process -> process * (raised + A).

Definition ret {A : Type} (a : A) : script A := fun p => (p, inr a).

Definition bind {A B : Type} (m : script A) (f : A -> script B) : script B :=
  fun p =>
    match m p with
    | (p', inr a) => f a p'
    | (p', inl e) => (p', inl e)
    end.

(** With these instances a script is written with stdpp's [x ← m; k] and
    [m;; k]. *)
#[global] Instance script_ret : MRet script := @ret.
#[global] Instance script_bind : MBind script := fun A B f m => bind m f.

Definition print (x : printed) : script unit :=
  fun p => ({| stdout := stdout p ++ [x]; mongoclient := mongoclient p |}, inr tt).

(** A call into a library, which raises or returns. *)
Definition call {A : Type} (o : outcome A) : script A :=
  fun p =>
    match o with
    | Raised e => (p, inl (Exception e))
    | Returned a => (p, inr a)
    end.

(** [exit()], [sys.exit(code)] *)
Definition exit {A : Type} (code : option Z) : script A :=
  fun p => (p, inl (SystemExit code)).

(** [try: body / except Exception as e: handler] *)
Definition try_except (body : script unit) (handler : string -> script unit)
  : script unit :=
  fun p =>
    match body p with
    | (p', inl (Exception e)) => handler e p'
    | other => other
    end.

(** [mongoclient = ...] and ['mongoclient' in locals()] *)
Definition assign_mongoclient : script unit :=
  fun p => ({| stdout := stdout p; mongoclient := true |}, inr tt).

Definition mongoclient_in_locals : script bool :=
  fun p => (p, inr (mongoclient p)).

(** How a run ends. *)
Inductive ending : Type :=
| Finished
| Exited (status : Z)
| Traceback (e : string).

(** A run from a fresh process: what was printed, and the ending.
    [SystemExit] without a code is status 0. *)
Definition run (m : script unit) : list printed * ending :=
  match m {| stdout := []; mongoclient := false |} with
  | (p, inr _) => (stdout p, Finished)
  | (p, inl (SystemExit None)) => (stdout p, Exited 0)
  | (p, inl (SystemExit (Some c))) => (stdout p, Exited c)
  | (p, inl (Exception e)) => (stdout p, Traceback e)
  end.

Definition transcript (m : script unit) : list printed := fst (run m).

(** The line feed of ["\n"]. *)
Definition nl : string := String (ascii_of_nat 10) "".

(** *** analysis.py *)

(** What the libraries answer during one run of analysis.py. *)
Record answers : Type := {
  read_insider : outcome DataFrame;
  read_sla : outcome DataFrame;
  aggregate : outcome (list (string * nat));
  count_phish : outcome nat;
  read_exfil : outcome DataFrame;
  find_logs : outcome (list Access_logs.doc);
  read_rbac : outcome DataFrame;
  read_vuln : outcome DataFrame
}.

Definition error (e : string) : script unit := print (Line ("Error: " ++ e)).

Definition use_case_1 (a : answers) : script unit :=
  print (Line (nl ++ "[Use Case 1] Insider Threat Detection (Access outside 08:00-20:00)"));;
  try_except
    (df_insider ← call (read_insider a);
     if negb (empty df_insider) then print (Table df_insider)
     else print (Line ">> No after-hours access detected."))
    error.

Definition use_case_2 (a : answers) : script unit :=
  print (Line (nl ++ "[Use Case 2] SLA Performance KPIs (Avg Response Time)"));;
  try_except
    (df_sla ← call (read_sla a);
     print (Table df_sla))
    error.

(** [pd.DataFrame(results)] *)
Definition df_identity (results : list (string * nat)) : DataFrame :=
  {| columns := ["_id"; "Failed_Count"];
     rows := map (fun r => [Text (fst r); Integer (Z.of_nat (snd r))]) results |}.

Definition use_case_3 (a : answers) : script unit :=
  print (Line (nl ++ "[Use Case 3] Identity Risks (Repeated Failed Logins)"));;
  try_except
    (results ← call (aggregate a);
     match results with
     | _ :: _ => print (Table (df_identity results))
     | [] => print (Line ">> No users exceeded failure threshold.")
     end)
    error.

Definition use_case_4 (a : answers) : script unit :=
  print (Line (nl ++ "[Use Case 4] Phishing Victims (High Risk Clicks)"));;
  try_except
    (victim_count ← call (count_phish a);
     print (Line (">> Total Users Compromised: " ++ str victim_count)))
    error.

Definition use_case_5 (a : answers) : script unit :=
  print (Line (nl ++ "[Use Case 5] Potential Data Exfiltration (> 100MB Transfer)"));;
  try_except
    (df_exfil ← call (read_exfil a);
     if negb (empty df_exfil) then print (Table df_exfil)
     else print (Line ">> No large transfers detected."))
    error.

Definition cell_of (v : scalar) : cell :=
  match v with
  | SNull => Null
  | SStr s => Text s
  | SInt n => Integer n
  end.

(** [impossible[['_ID', 'TIMESTAMP', 'Country', 'Prev_Country']].head()] *)
Definition impossible_head (impossible : list (Access_logs.doc * scalar))
  : DataFrame :=
  {| columns := ["_ID"; "TIMESTAMP"; "Country"; "Prev_Country"];
     rows := map (fun r => [Text (Access_logs._ID (fst r));
                            Integer (Access_logs.TIMESTAMP (fst r));
                            cell_of (Country (fst r)); cell_of (snd r)])
               (firstn 5 impossible) |}.

Definition use_case_6 (a : answers) : script unit :=
  print (Line (nl ++ "[Use Case 6] Impossible Travel Detection"));;
  try_except
    (logs ← call (find_logs a);
     report ← call (impossible_travel logs);
     match report with
     | Alert impossible =>
         print (Line (">> ALERT: " ++ str (length impossible)
                      ++ " suspicious location jumps detected."));;
         print (Table (impossible_head impossible))
     | No_patterns => print (Line ">> No impossible travel patterns found.")
     | No_log_data => print (Line ">> No log data available.")
     end)
    error.

Definition use_case_7 (a : answers) : script unit :=
  print (Line (nl ++ "[Use Case 7] Segregation of Duties (RBAC) Violation"));;
  try_except
    (df_rbac ← call (read_rbac a);
     if negb (empty df_rbac) then print (Table df_rbac)
     else print (Line ">> No RBAC violations detected."))
    error.

Definition use_case_8 (a : answers) : script unit :=
  print (Line (nl ++ "[Use Case 8] Endpoint Vulnerability Management"));;
  try_except
    (df_vuln ← call (read_vuln a);
     if negb (empty df_vuln) then
       print (Line (">> ALERT: " ++ str (length (rows df_vuln))
                    ++ " devices require immediate patching."));;
       print (Table df_vuln)
     else print (Line ">> All devices healthy."))
    error.

Definition use_cases : list (answers -> script unit) :=
  [use_case_1; use_case_2; use_case_3; use_case_4;
   use_case_5; use_case_6; use_case_7; use_case_8].

Definition rule : string :=
  "=======================================================".

(** analysis.py from its first line to its last print.  [today] is
    [datetime.now().strftime('%Y-%m-%d')]; [sqlite3_connect] and
    [MongoClient] are the answers of the two calls of the connection
    block.  The two [close()] calls that end the script print nothing and
    are taken not to raise. *)
Definition analysis (today : string) (sqlite3_connect MongoClient : outcome unit)
  (a : answers) : script unit :=
  print (Line rule);;
  print (Line "   SECURITY OPERATIONS CENTER (SOC) REPORT");;
  print (Line ("   Date: " ++ today));;
  print (Line (rule ++ nl));;
  try_except
    (call sqlite3_connect;;
     call MongoClient;;
     print (Line ("[SYSTEM] Databases Connected Successfully." ++ nl)))
    (fun e =>
       print (Line ("[CRITICAL] Connection failed: " ++ e));;
       exit None);;
  print (Line "--- SECTION 1: BASELINE SECURITY MONITORING ---");;
  use_case_1 a;;
  use_case_2 a;;
  use_case_3 a;;
  use_case_4 a;;
  use_case_5 a;;
  use_case_6 a;;
  use_case_7 a;;
  use_case_8 a;;
  print (Line (nl ++ rule));;
  print (Line "   ANALYSIS COMPLETE");;
  print (Line rule).

(** *** setup_all_databases.py *)

(** What the libraries answer during one run of setup_all_databases.py:
    [connect] is lines 28 to 30, [pip_install] line 38, [client] line 39,
    [drop] lines 40 to 44, [schema] lines 71 and 188, [population] lines
    259 to 369, and the two [insert_many] return the number of records. *)
Record setup_answers : Type := {
  connect : outcome unit;
  pip_install : outcome unit;
  client : outcome unit;
  drop : outcome unit;
  schema : outcome unit;
  population : outcome unit;
  insert_access_logs : outcome nat;
  insert_phishing : outcome nat
}.

(** The script from its first line to its last; [stamp] is
    [datetime.now().strftime('%Y-%m-%d %H:%M:%S')].  Only the two
    connection blocks have a handler. *)
Definition setup_all_databases (stamp : string) (s : setup_answers)
  : script unit :=
  print (Line ("--- Initialization: " ++ stamp ++ " ---"));;
  try_except
    (call (connect s);;
     print (Line "✅ [SQL] Connected to security_db.db"))
    (fun e =>
       print (Line ("❌ [SQL] Connection failed: " ++ e));;
       exit (Some 1%Z));;
  try_except
    (call (pip_install s);;
     call (client s);;
     assign_mongoclient;;
     call (drop s);;
     print (Line "✅ [NoSQL] Connected to Cybersecurity_Dep (Collections cleared)"))
    (fun e =>
       print (Line ("⚠️ [NoSQL] MongoDB not found. Ensure it is running locally on port 27017. Error: " ++ e)));;
  call (schema s);;
  print (Line "✅ [SQL] Schema created successfully (including Endpoint_Security).");;
  call (population s);;
  print (Line "✅ [SQL] Data populated successfully.");;
  bound ← mongoclient_in_locals;
  (if bound : bool then
     print (Line (nl ++ "--- Generating MongoDB Logs ---"));;
     n ← call (insert_access_logs s);
     print (Line ("✅ [NoSQL] Inserted " ++ str n ++ " records into 'Access_logs'."));;
     m ← call (insert_phishing s);
     print (Line ("✅ [NoSQL] Inserted " ++ str m ++ " records into 'Phishing_attacks'."))
   else ret tt);;
  print (Line "SETUP COMPLETE: The Hybrid Security System is ready for analysis.").

(** *** Runs of the two scripts used below *)

Definition no_rows (cols : list string) : DataFrame :=
  {| columns := cols; rows := [] |}.

(** Every one of the eight reads returns an empty result. *)
Definition nothing_found : answers :=
  {| read_insider := Returned (no_rows ["Employee"; "Department"; "Access_Time"]);
     read_sla := Returned (no_rows ["incident_type"; "Avg_Minutes"]);
     aggregate := Returned [];
     count_phish := Returned 0;
     read_exfil := Returned (no_rows ["Employee"; "protocol_name"; "Total_MB"]);
     find_logs := Returned [];
     read_rbac := Returned (no_rows ["Employee"; "Department"; "file_name"]);
     read_vuln :=
       Returned (no_rows ["Owner"; "os_name"; "os_version"; "antivirus_status"]) |}.

(** Every one of the eight reads raises [e]. *)
Definition all_failing (e : string) : answers :=
  {| read_insider := Raised e; read_sla := Raised e; aggregate := Raised e;
     count_phish := Raised e; read_exfil := Raised e; find_logs := Raised e;
     read_rbac := Raised e; read_vuln := Raised e |}.

(** A statement that neither raises nor unbinds anything: from any state
    it only appends its transcript. *)
Definition only_prints (m : script unit) : Prop :=
  forall p,
    m p = ({| stdout := (stdout p ++ transcript m)%list;
              mongoclient := mongoclient p |}, inr tt).

(** A seeding run in which the MongoDB server cannot be reached and the
    rest goes well.  [MongoClient(...)] does not connect: the failure [e]
    comes at the first command, [drop()], with the name [mongoclient]
    already bound, and again at [insert_many]. *)
Definition mongo_down (e : string) : setup_answers :=
  {| connect := Returned tt; pip_install := Returned tt; client := Returned tt;
     drop := Raised e; schema := Returned tt; population := Returned tt;
     insert_access_logs := Raised e; insert_phishing := Raised e |}.

(** What analysis.py prints before the first and after the last use case
    when both connections open. *)
Definition preamble (today : string) : list printed :=
  [Line rule;
   Line "   SECURITY OPERATIONS CENTER (SOC) REPORT";
   Line ("   Date: " ++ today);
   Line (rule ++ nl);
   Line ("[SYSTEM] Databases Connected Successfully." ++ nl);
   Line "--- SECTION 1: BASELINE SECURITY MONITORING ---"].

Definition closing : list printed :=
  [Line (nl ++ rule); Line "   ANALYSIS COMPLETE"; Line rule].

(** A document as it is stored without a LOCATION field. *)
Definition unlocated (d : Access_logs.doc) : Access_logs.doc :=
  {| Access_logs._ID := Access_logs._ID d;
     Access_logs.TIMESTAMP := Access_logs.TIMESTAMP d;
     Access_logs.LOCATION := None;
     Access_logs.STATUS := Access_logs.STATUS d |}.

(** The reads of a run whose collection is [without_LOCATION]. *)
Definition no_LOCATION_anywhere : answers :=
  {| read_insider := read_insider nothing_found;
     read_sla := read_sla nothing_found;
     aggregate := aggregate nothing_found;
     count_phish := count_phish nothing_found;
     read_exfil := read_exfil nothing_found;
     find_logs := Returned without_LOCATION;
     read_rbac := read_rbac nothing_found;
     read_vuln := read_vuln nothing_found |}.

(** The reads of a run whose collection is [logs]. *)
Definition reading (logs : list Access_logs.doc) : answers :=
  {| read_insider := read_insider nothing_found;
     read_sla := read_sla nothing_found;
     aggregate := aggregate nothing_found;
     count_phish := count_phish nothing_found;
     read_exfil := read_exfil nothing_found;
     find_logs := Returned logs;
     read_rbac := read_rbac nothing_found;
     read_vuln := read_vuln nothing_found |}.

(** *** Reading a transcript *)

Definition returned {A : Type} (o : outcome A) : bool :=
  match o with Returned _ => true | Raised _ => false end.

Definition raised_by {A : Type} (o : outcome A) : option string :=
  match o with Raised e => Some e | Returned _ => None end.

Definition finished (e : ending) : bool :=
  match e with Finished => true | Exited _ | Traceback _ => false end.

(** The exit status of the process: 0 after the last statement, the code
    given to [sys.exit] (0 for [exit()] without one), and 1 after an
    exception that nothing caught. *)
Definition exit_status (e : ending) : Z :=
  match e with Finished => 0 | Exited c => c | Traceback _ => 1 end.

(** The run was ended by [sys.exit] or [exit]. *)
Definition exited (e : ending) : bool :=
  match e with Exited _ => true | Finished | Traceback _ => false end.

Definition is_line (s : string) (x : printed) : bool :=
  match x with Line t => String.eqb s t | Table _ => false end.

(** [strip prefix s]: what follows [prefix] in [s], if [s] starts with it. *)
Fixpoint strip (prefix s : string) : option string :=
  match prefix with
  | EmptyString => Some s
  | String a prefix' =>
      match s with
      | String b s' => if Ascii.eqb a b then strip prefix' s' else None
      | EmptyString => None
      end
  end.

(** The messages of the lines "Error: ..." of a transcript, in order. *)
Definition errors (out : list printed) : list string :=
  flat_map
    (fun x =>
       match x with
       | Line t => match strip "Error: " t with Some e => [e] | None => [] end
       | Table _ => []
       end)
    out.

(** For each use case, the exception its [try] body raises, if any: that of
    its read, or for use case 6 also that of the pandas steps. *)
Definition failures (a : answers) : list (option string) :=
  [raised_by (read_insider a); raised_by (read_sla a);
   raised_by (aggregate a); raised_by (count_phish a);
   raised_by (read_exfil a);
   match find_logs a with
   | Raised e => Some e
   | Returned logs => raised_by (impossible_travel logs)
   end;
   raised_by (read_rbac a); raised_by (read_vuln a)].

Definition messages (fs : list (option string)) : list string :=
  flat_map (fun f => match f with Some e => [e] | None => [] end) fs.

(** ** The row store as setup_all_databases.py fills it *)

#[global] Instance outcome_ret : MRet outcome := @Returned.
#[global] Instance outcome_bind : MBind outcome :=
  fun A B f o => match o with Raised e => Raised e | Returned a => f a end.

(** [random.randint(lo, hi)] as a function of what the generator yields:
    for [lo <= hi] an integer of [lo .. hi], and each of them for some
    [raw]. *)
Definition randint (lo hi : Z) (raw : nat) : Z :=
  (lo + Z.of_nat raw mod (hi - lo + 1))%Z.

(** The ids an [INTEGER PRIMARY KEY AUTOINCREMENT] column gives to rows
    inserted into a fresh table: 1, 2, ... *)
Fixpoint numbered {A B : Type} (row : Z -> A -> B) (next : Z) (values : list A)
  : list B :=
  match values with
  | [] => []
  | v :: rest => row next v :: numbered row (next + 1)%Z rest
  end.

(** A foreign key holds when the parent table has the key. *)
Definition references (keys : list Z) (k : Z) : bool := existsb (Z.eqb k) keys.

(** An INSERT of several rows under [PRAGMA foreign_keys = ON]: all rows
    or, when one breaks a foreign key, none and an IntegrityError. *)
Definition insert_checked {A : Type} (ok : A -> bool) (rows : list A)
  : outcome (list A) :=
  if forallb ok rows then Returned rows
  else Raised "FOREIGN KEY constraint failed".

(** The rows of [EmpNames_sql], as (first_name, last_name, Department,
    email, role_ID). *)
Definition EmpNames : list (string * string * string * string * Z) :=
  [("Alice", "Johnson", "Finance", "alice.johnson@bank.com", 1%Z);
   ("Bob", "Smith", "IT", "bob.smith@bank.com", 2%Z);
   ("Charlie", "Brown", "HR", "charlie.brown@bank.com", 3%Z);
   ("David", "Wilson", "Cybersecurity", "david.wilson@bank.com", 4%Z);
   ("Emma", "Davis", "Operations", "emma.davis@bank.com", 5%Z);
   ("Frank", "Miller", "Finance", "frank.miller@bank.com", 1%Z);
   ("Grace", "Moore", "IT", "grace.moore@bank.com", 2%Z);
   ("Hannah", "Taylor", "HR", "hannah.taylor@bank.com", 3%Z);
   ("Isaac", "Anderson", "Cybersecurity", "isaac.anderson@bank.com", 4%Z);
   ("Jack", "Thomas", "Operations", "jack.thomas@bank.com", 5%Z);
   ("Kelly", "White", "Finance", "kelly.white@bank.com", 1%Z);
   ("Liam", "Harris", "IT", "liam.harris@bank.com", 2%Z);
   ("Mia", "Martin", "HR", "mia.martin@bank.com", 3%Z);
   ("Noah", "Thompson", "Cybersecurity", "noah.thompson@bank.com", 4%Z);
   ("Olivia", "Garcia", "Operations", "olivia.garcia@bank.com", 5%Z);
   ("Peter", "Martinez", "Finance", "peter.martinez@bank.com", 1%Z);
   ("Quinn", "Robinson", "IT", "quinn.robinson@bank.com", 2%Z);
   ("Ryan", "Clark", "HR", "ryan.clark@bank.com", 3%Z);
   ("Sophia", "Rodriguez", "Cybersecurity", "sophia.rodriguez@bank.com", 4%Z);
   ("Tyler", "Lewis", "Operations", "tyler.lewis@bank.com", 5%Z);
   ("Uma", "Lee", "Finance", "uma.lee@bank.com", 1%Z);
   ("Victor", "Walker", "IT", "victor.walker@bank.com", 2%Z);
   ("Wendy", "Hall", "HR", "wendy.hall@bank.com", 3%Z);
   ("Xander", "Allen", "Cybersecurity", "xander.allen@bank.com", 4%Z);
   ("Yara", "Young", "Operations", "yara.young@bank.com", 5%Z);
   ("Zach", "King", "Finance", "zach.king@bank.com", 1%Z);
   ("Amy", "Scott", "IT", "amy.scott@bank.com", 2%Z);
   ("Brian", "Green", "HR", "brian.green@bank.com", 3%Z);
   ("Chloe", "Adams", "Cybersecurity", "chloe.adams@bank.com", 4%Z);
   ("Daniel", "Baker", "Operations", "daniel.baker@bank.com", 5%Z);
   ("Ella", "Gonzalez", "Finance", "ella.gonzalez@bank.com", 1%Z);
   ("Finn", "Nelson", "IT", "finn.nelson@bank.com", 2%Z);
   ("George", "Carter", "HR", "george.carter@bank.com", 3%Z);
   ("Holly", "Mitchell", "Cybersecurity", "holly.mitchell@bank.com", 4%Z);
   ("Ian", "Perez", "Operations", "ian.perez@bank.com", 5%Z);
   ("Jane", "Roberts", "Finance", "jane.roberts@bank.com", 1%Z);
   ("Kevin", "Phillips", "IT", "kevin.phillips@bank.com", 2%Z);
   ("Laura", "Evans", "HR", "laura.evans@bank.com", 3%Z);
   ("Mason", "Edwards", "Cybersecurity", "mason.edwards@bank.com", 4%Z);
   ("Natalie", "Collins", "Operations", "natalie.collins@bank.com", 5%Z);
   ("Oscar", "Stewart", "Finance", "oscar.stewart@bank.com", 1%Z);
   ("Paul", "Morris", "IT", "paul.morris@bank.com", 2%Z);
   ("Rebecca", "Nguyen", "HR", "rebecca.nguyen@bank.com", 3%Z);
   ("Samuel", "Murphy", "Cybersecurity", "samuel.murphy@bank.com", 4%Z);
   ("Tina", "Rivera", "Operations", "tina.rivera@bank.com", 5%Z);
   ("Ursula", "Foster", "Finance", "ursula.foster@bank.com", 1%Z);
   ("Vince", "Hayes", "IT", "vince.hayes@bank.com", 2%Z);
   ("Walter", "Perry", "HR", "walter.perry@bank.com", 3%Z);
   ("Xenia", "Long", "Cybersecurity", "xenia.long@bank.com", 4%Z);
   ("Yasmine", "Bryant", "Operations", "yasmine.bryant@bank.com", 5%Z);
   ("Zane", "Griffin", "Finance", "zane.griffin@bank.com", 1%Z);
   ("Ava", "Russell", "Finance", "ava.russell@bank.com", 1%Z);
   ("Blake", "Simmons", "IT", "blake.simmons@bank.com", 2%Z);
   ("Cameron", "Barnes", "HR", "cameron.barnes@bank.com", 3%Z);
   ("Diana", "Henderson", "Cybersecurity", "diana.henderson@bank.com", 4%Z);
   ("Ethan", "Coleman", "Operations", "ethan.coleman@bank.com", 5%Z);
   ("Fiona", "Powell", "Finance", "fiona.powell@bank.com", 1%Z);
   ("Gavin", "Jenkins", "IT", "gavin.jenkins@bank.com", 2%Z);
   ("Hailey", "Patterson", "HR", "hailey.patterson@bank.com", 3%Z);
   ("Isaiah", "Hughes", "Cybersecurity", "isaiah.hughes@bank.com", 4%Z)].

Definition employee_row (i : Z) (v : string * string * string * string * Z)
  : Employee_Data.row :=
  let '(first, last, dept, mail, role) := v in
  {| Employee_Data.employee_id := i; Employee_Data.first_name := first;
     Employee_Data.last_name := last; Employee_Data.Department := dept;
     Employee_Data.email := mail; Employee_Data.role_ID := role |}.

(** [Employee_Data] after [cursor.execute(EmpNames_sql)]. *)
Definition employees_inserted : list Employee_Data.row :=
  numbered employee_row 1 EmpNames.

(** [endpoint_data], as (employee_id, os_name, os_version, last_patch_date,
    antivirus_status). *)
Definition endpoint_data : list (Z * string * string * string * string) :=
  [(1, "Windows", "11", "2024-03-01", "Active");
   (2, "Windows", "10", "2024-02-15", "Active");
   (3, "MacOS", "Sonoma", "2024-03-10", "Active");
   (4, "Windows", "7", "2020-01-14", "Expired");
   (5, "Linux", "Ubuntu 22.04", "2024-03-20", "Active");
   (6, "Windows", "10", "2023-11-01", "Disabled");
   (7, "Windows", "11", "2024-03-05", "Active");
   (8, "MacOS", "Ventura", "2023-12-20", "Active");
   (9, "Windows", "XP", "2014-04-08", "Expired");
   (10, "Windows", "11", "2024-03-01", "Active")]%Z.

Definition endpoint_row (i : Z) (v : Z * string * string * string * string)
  : Endpoint_Security.row :=
  let '(owner, os, version, patched, antivirus) := v in
  {| Endpoint_Security.device_id := i;
     Endpoint_Security.employee_id := Some owner;
     Endpoint_Security.os_name := Some os;
     Endpoint_Security.os_version := Some version;
     Endpoint_Security.last_patch_date := Some patched;
     Endpoint_Security.antivirus_status := Some antivirus |}.

(** The tables of names, as (id, name). *)
Definition Protocol_Data_rows : list (Z * string) :=
  [(1, "HTTP"); (2, "FTP"); (3, "SSH"); (4, "DNS")]%Z.

Definition Access_Type_rows : list (Z * string) :=
  numbered pair 1
    ["Read"; "Write"; "Execute"; "Modify"; "Delete"; "Create"; "View";
     "Download"; "Upload"; "Share"].

Definition Permissions_rows : list (Z * string) :=
  numbered pair 1
    ["View Reports"; "Edit Reports"; "Manage Users"; "Access Financial Data";
     "Modify IT Infrastructure"; "Manage HR Records";
     "Access Cybersecurity Systems"; "Monitor Security Alerts";
     "Process Operations Requests"; "Approve Operational Changes"].

Definition Detected_By_rows : list (Z * string) :=
  numbered pair 1
    ["Security Team"; "Automated System"; "End User"; "Firewall System"].

Definition Detection_Method_rows : list (Z * string) :=
  numbered pair 1
    ["Automated Monitoring"; "Intrusion Detection System"; "User Report";
     "Firewall Alert"].

(** The dict [department_roles], in the order of its items. *)
Definition department_roles : list (string * list (Z * string)) :=
  [("Finance",
    [(1, "Junior Accountant"); (2, "Mid Accountant"); (3, "Senior Accountant");
     (4, "CFO"); (5, "Finance Director")]);
   ("IT",
    [(6, "Junior IT Analyst"); (7, "Mid IT Analyst"); (8, "Senior IT Analyst");
     (9, "IT Manager"); (10, "CTO")]);
   ("HR",
    [(11, "Junior HR Manager"); (12, "Mid HR Manager");
     (13, "Senior HR Manager"); (14, "HR Director"); (15, "Chief HR Officer")]);
   ("Cybersecurity",
    [(16, "Junior Cybersecurity Analyst"); (17, "Mid Cybersecurity Analyst");
     (18, "Senior Cybersecurity Analyst"); (19, "Cybersecurity Manager");
     (20, "Chief Security Officer")]);
   ("Operations",
    [(21, "Junior Operations Analyst"); (22, "Mid Operations Analyst");
     (23, "Senior Operations Analyst"); (24, "Operations Manager");
     (25, "COO")])]%Z.

(** [d[key]] and [key in d] for a dict with string keys. *)
Definition item {V : Type} (d : list (string * V)) (key : string) : option V :=
  option_map snd (List.find (fun kv => String.eqb (fst kv) key) d).

(** [INSERT INTO Roles (role_ID, role_name) VALUES (?, ?)]: the primary key
    is given, so the engine checks that it is new. *)
Definition insert_role (t : list (Z * string)) (r : Z * string)
  : outcome (list (Z * string)) :=
  if references (map fst t) (fst r) then
    Raised "UNIQUE constraint failed: Roles.role_id"
  else Returned (t ++ [r])%list.

(** The two nested loops of lines 294 to 296. *)
Fixpoint insert_roles (t : list (Z * string)) (roles : list (Z * string))
  : outcome (list (Z * string)) :=
  match roles with
  | [] => Returned t
  | r :: rest => t' ← insert_role t r; insert_roles t' rest
  end.

Fixpoint insert_department_roles (t : list (Z * string))
  (items : list (string * list (Z * string))) : outcome (list (Z * string)) :=
  match items with
  | [] => Returned t
  | (department, roles) :: rest =>
      t' ← insert_roles t roles; insert_department_roles t' rest
  end.

Definition role_ranges : list (string * (Z * Z)) :=
  [("Finance", (1, 5)); ("IT", (6, 10)); ("HR", (11, 15));
   ("Cybersecurity", (16, 20)); ("Operations", (21, 25))]%Z.

Definition with_role (new_role_ID : Z) (e : Employee_Data.row)
  : Employee_Data.row :=
  {| Employee_Data.employee_id := Employee_Data.employee_id e;
     Employee_Data.first_name := Employee_Data.first_name e;
     Employee_Data.last_name := Employee_Data.last_name e;
     Employee_Data.Department := Employee_Data.Department e;
     Employee_Data.email := Employee_Data.email e;
     Employee_Data.role_ID := new_role_ID |}.

(** The loop of lines 303 to 306 over the fetched employees: [g] is what
    the random generator yields, [k] the number of draws made so far. *)
Fixpoint assign_roles (g : nat -> nat) (k : nat)
  (employees : list Employee_Data.row) : list Employee_Data.row :=
  match employees with
  | [] => []
  | e :: rest =>
      match item role_ranges (Employee_Data.Department e) with
      | Some (lo, hi) =>
          with_role (randint lo hi (g k)) e :: assign_roles g (S k) rest
      | None => e :: assign_roles g k rest
      end
  end.

Definition permissions_for_employees : list (string * list Z) :=
  [("Alice Johnson", [6; 5]); ("Amy Scott", [1; 2]); ("Bob Smith", [1; 2]);
   ("Brian Green", [3; 4]); ("David Wilson", [7; 8]); ("Frank Miller", [4; 3]);
   ("Gavin Jenkins", [1; 2]); ("Holly Mitchell", [7; 8]);
   ("Isaac Anderson", [7; 8]); ("Kevin Phillips", [9; 10]);
   ("Mia Martin", [3; 4]); ("Noah Thompson", [7; 8]);
   ("Oscar Stewart", [6; 5]); ("Quinn Robinson", [9; 10]);
   ("Xander Allen", [7; 8])]%Z.

(** The blanks on which [str.split()] cuts, for a string held as the
    bytes of its UTF-8 encoding (as for LIKE above): the ASCII blanks 0x09
    to 0x0D, 0x1C to 0x1F and 0x20, and the other characters Python takes
    as whitespace, U+0085, U+00A0, U+1680, U+2000 to U+200A, U+2028,
    U+2029, U+202F, U+205F and U+3000.  [blank s] is the number of bytes of
    the blank [s] starts with, 0 when it starts with none. *)
Definition blank (s : string) : nat :=
  match s with
  | EmptyString => 0
  | String a s1 =>
      let a := nat_of_ascii a in
      if ((a =? 32) || (9 <=? a) && (a <=? 13)
          || (28 <=? a) && (a <=? 31))%nat
      then 1
      else
        match s1 with
        | EmptyString => 0
        | String b s2 =>
            let b := nat_of_ascii b in
            if ((a =? 194) && ((b =? 133) || (b =? 160)))%nat then 2
            else
              match s2 with
              | EmptyString => 0
              | String c _ =>
                  let c := nat_of_ascii c in
                  if ((a =? 225) && (b =? 154) && (c =? 128))%nat then 3
                  else if ((a =? 226) && (b =? 128)
                           && ((128 <=? c) && (c <=? 138) || (c =? 168)
                               || (c =? 169) || (c =? 175)))%nat then 3
                  else if ((a =? 226) && (b =? 129) && (c =? 159))%nat then 3
                  else if ((a =? 227) && (b =? 128) && (c =? 128))%nat then 3
                  else 0
              end
        end
  end.

(** [s.split()]: the words of [s] between runs of blanks; [word] is the
    word being read and [skip] the number of bytes still to pass of the
    blank being read. *)
Fixpoint split_from (skip : nat) (word s : string) : list string :=
  match s with
  | EmptyString =>
      match word with EmptyString => [] | String _ _ => [word] end
  | String c s' =>
      match skip with
      | S more => split_from more word s'
      | 0 =>
          match blank s with
          | S more =>
              match word with
              | EmptyString => split_from more "" s'
              | String _ _ => word :: split_from more "" s'
              end
          | 0 => split_from 0 (word ++ String c "") s'
          end
      end
  end.

Definition split (s : string) : list string := split_from 0 "" s.

(** A Python int that sqlite3 can bind as a parameter: a 64-bit signed
    integer.  Binding any other raises an OverflowError. *)
Definition int64 (n : Z) : bool :=
  (-9223372036854775808 <=? n)%Z && (n <=? 9223372036854775807)%Z.

Definition pair_eqb (a b : Z * Z) : bool :=
  (fst a =? fst b)%Z && (snd a =? snd b)%Z.

(** [INSERT INTO Roles_Permissions (role_id, permission_id)]: the engine
    checks the primary key (role_id, permission_id) and both foreign
    keys. *)
Definition insert_Roles_Permissions (role_ids permission_ids : list Z)
  (t : list (Z * Z)) (rp : Z * Z) : outcome (list (Z * Z)) :=
  if existsb (pair_eqb rp) t then
    Raised "UNIQUE constraint failed: Roles_Permissions.role_id, Roles_Permissions.permission_id"
  else if references role_ids (fst rp) && references permission_ids (snd rp)
  then Returned (t ++ [rp])%list
  else Raised "FOREIGN KEY constraint failed".

(** [SELECT COUNT( * ) FROM Roles_Permissions WHERE role_id = ? AND
    permission_id = ?] *)
Definition count_Roles_Permissions (t : list (Z * Z)) (rp : Z * Z) : nat :=
  length (List.filter (pair_eqb rp) t).

(** The inner loop of lines 322 to 325.  Both statements bind
    [(role_id, permission_id)], so the SELECT already raises when one of
    them is no 64-bit integer. *)
Fixpoint link_role (role_ids permission_ids : list Z) (t : list (Z * Z))
  (role_id : Z) (permissions : list Z) : outcome (list (Z * Z)) :=
  match permissions with
  | [] => Returned t
  | permission_id :: rest =>
      if int64 role_id && int64 permission_id then
        if (count_Roles_Permissions t (role_id, permission_id) =? 0)%nat then
          t' ← insert_Roles_Permissions role_ids permission_ids t
                 (role_id, permission_id);
          link_role role_ids permission_ids t' role_id rest
        else link_role role_ids permission_ids t role_id rest
      else Raised "Python int too large to convert to SQLite INTEGER"
  end.

(** The loop of lines 316 to 325: the name is unpacked into two words (a
    ValueError otherwise, named here by its type: its message tells the
    number of words), the role of the first employee of that name is
    fetched, and nothing is done when there is none. *)
Fixpoint link_permissions (employees : list Employee_Data.row)
  (role_ids permission_ids : list Z) (t : list (Z * Z))
  (items : list (string * list Z)) : outcome (list (Z * Z)) :=
  match items with
  | [] => Returned t
  | (full_name, permissions) :: rest =>
      match split full_name with
      | [first_name; last_name] =>
          match
            List.find
              (fun e => String.eqb (Employee_Data.first_name e) first_name
                        && String.eqb (Employee_Data.last_name e) last_name)
              employees
          with
          | Some e =>
              t' ← link_role role_ids permission_ids t
                     (Employee_Data.role_ID e) permissions;
              link_permissions employees role_ids permission_ids t' rest
          | None => link_permissions employees role_ids permission_ids t rest
          end
      | _ => Raised "ValueError"
      end
  end.

Module Network_Usage.
Record row : Type := {
  network_usage_id : Z;
  employee_id : Z;
  timestamp : string;
  data_transfered_MB : float;
  protocol_id : Z;
  destination_ip : string
}.
End Network_Usage.

Module Security_Incidents.
Record row : Type := {
  incident_id : Z;
  employee_id : Z;
  timestamp : string;
  incident_type : string;
  resolution_status : string
}.
End Security_Incidents.

Module Incident_Response.
Record row : Type := {
  incident_response_id : Z;
  incident_id : Z;
  response_start_time : string;
  response_end_time : string
}.
End Incident_Response.

Definition network_usage_row (i : Z) (v : Z * string * float * Z * string)
  : Network_Usage.row :=
  let '(e, ts, mb, p, ip) := v in
  {| Network_Usage.network_usage_id := i; Network_Usage.employee_id := e;
     Network_Usage.timestamp := ts; Network_Usage.data_transfered_MB := mb;
     Network_Usage.protocol_id := p; Network_Usage.destination_ip := ip |}.

(** The rows of [NetworkInfo_sql]. *)
Definition NetworkInfo : list Network_Usage.row :=
  numbered network_usage_row 1
    [(32%Z, "2024-03-24 08:15:23", 45.6%float, 1%Z, "192.168.1.10");
     (12%Z, "2024-03-24 09:20:11", 12.3%float, 2%Z, "10.0.0.5");
     (45%Z, "2024-03-24 10:05:45", 205.9%float, 3%Z, "172.16.0.2");
     (21%Z, "2024-03-24 11:12:32", 23.1%float, 1%Z, "192.168.1.15");
     (9%Z, "2024-03-24 12:40:21", 56.7%float, 4%Z, "10.0.0.8");
     (56%Z, "2024-03-24 13:55:10", 98.2%float, 2%Z, "172.16.1.3");
     (7%Z, "2024-03-24 14:22:18", 34.5%float, 3%Z, "192.168.2.20");
     (48%Z, "2024-03-24 15:30:25", 87.4%float, 1%Z, "10.0.1.15");
     (19%Z, "2024-03-24 16:45:33", 14.2%float, 4%Z, "172.16.2.4");
     (29%Z, "2024-03-24 17:50:40", 150.5%float, 2%Z, "192.168.3.11")].

(** The rows of [FileName_sql]. *)
Definition FileName : list File_Data.row :=
  numbered file 1
    ["Sales_Report_2024_Q1.xlsx"; "Employee_Records_2024.xlsx";
     "Budget_Overview_2024.xlsx"; "Payroll_Data_2024.csv";
     "IT_Security_Protocols_2024.pdf"; "Marketing_Budgets_2024.xlsx"].

Definition file_access_row (i : Z) (v : Z * Z * string * Z) : File_Access.row :=
  let '(e, a, ts, f) := v in
  {| File_Access.access_id := i; File_Access.employee_id := e;
     File_Access.access_type_id := a; File_Access.timestamp := ts;
     File_Access.file_id := f |}.

(** The rows of [FileAccess_sql]. *)
Definition FileAccess : list File_Access.row :=
  numbered file_access_row 1
    [(7, 4, "2024-03-25 07:32:15", 1); (2, 2, "2024-03-25 09:10:53", 2);
     (15, 6, "2024-03-25 21:24:46", 3); (30, 1, "2024-03-25 11:45:20", 4);
     (21, 5, "2024-03-25 13:05:12", 5); (12, 7, "2024-03-25 22:23:39", 6)]%Z.

Definition incident_row (i : Z) (v : Z * string * string * string)
  : Security_Incidents.row :=
  let '(e, ts, type, status) := v in
  {| Security_Incidents.incident_id := i; Security_Incidents.employee_id := e;
     Security_Incidents.timestamp := ts;
     Security_Incidents.incident_type := type;
     Security_Incidents.resolution_status := status |}.

(** The rows of [Security_Incidents_sql]. *)
Definition Security_Incidents_rows : list Security_Incidents.row :=
  numbered incident_row 1
    [(5%Z, "2024-03-25 08:20:53", "Unauthorized Access", "Resolved");
     (12%Z, "2024-03-28 12:32:20", "Malware Infection", "In Progress");
     (21%Z, "2024-03-27 14:20:56", "Phishing Attack", "Resolved");
     (8%Z, "2024-03-27 10:45:39", "Data Breach", "Resolved");
     (36%Z, "2024-03-27 04:10:27", "Password Compromise", "In Progress");
     (40%Z, "2024-03-26 07:50:20", "Insider Threat", "Resolved")].

Definition response_row (i : Z) (v : Z * string * string)
  : Incident_Response.row :=
  let '(inc, t0, t1) := v in
  {| Incident_Response.incident_response_id := i;
     Incident_Response.incident_id := inc;
     Incident_Response.response_start_time := t0;
     Incident_Response.response_end_time := t1 |}.

(** The rows of [Incident_Response_sql]. *)
Definition Incident_Response_rows : list Incident_Response.row :=
  numbered response_row 1
    [(1%Z, "2024-03-25 08:30:00", "2024-03-25 09:00:00");
     (2%Z, "2024-03-28 12:45:00", "2024-03-28 13:30:00");
     (3%Z, "2024-03-27 14:30:00", "2024-03-27 15:00:00");
     (4%Z, "2024-03-27 10:50:00", "2024-03-27 11:20:00");
     (5%Z, "2024-03-27 04:15:00", "2024-03-27 04:45:00");
     (6%Z, "2024-03-26 08:00:00", "2024-03-26 08:30:00")].

(** The row store at [cnxn.commit()]. *)
Record row_store : Type := {
  Employee_Data_s : list Employee_Data.row;
  Endpoint_Security_s : list Endpoint_Security.row;
  Protocol_Data_s : list (Z * string);
  Access_Type_s : list (Z * string);
  Permissions_s : list (Z * string);
  Detected_By_s : list (Z * string);
  Detection_Method_s : list (Z * string);
  Roles_s : list (Z * string);
  Roles_Permissions_s : list (Z * Z);
  Network_Usage_s : list Network_Usage.row;
  File_Data_s : list File_Data.row;
  File_Access_s : list File_Access.row;
  Security_Incidents_s : list Security_Incidents.row;
  Incident_Response_s : list Incident_Response.row
}.

Definition employee_ids_of (employees : list Employee_Data.row) : list Z :=
  map Employee_Data.employee_id employees.

(** Section B of the script, statement by statement; each INSERT into a
    table with foreign keys is checked against the parents as they are at
    that point.  [g] is what the random generator yields. *)
Definition data_population (g : nat -> nat) : outcome row_store :=
  let employees := employees_inserted in
  endpoints ←
    insert_checked
      (fun s => match Endpoint_Security.employee_id s with
                | Some i => references (employee_ids_of employees) i
                | None => true
                end)
      (numbered endpoint_row 1 endpoint_data);
  roles ← insert_department_roles [] department_roles;
  let employees := assign_roles g 0 employees in
  roles_permissions ←
    link_permissions employees (map fst roles) (map fst Permissions_rows) []
      permissions_for_employees;
  network ←
    insert_checked
      (fun n => references (employee_ids_of employees) (Network_Usage.employee_id n)
                && references (map fst Protocol_Data_rows) (Network_Usage.protocol_id n))
      NetworkInfo;
  let files := FileName in
  accesses ←
    insert_checked
      (fun a => references (employee_ids_of employees) (File_Access.employee_id a)
                && references (map fst Access_Type_rows) (File_Access.access_type_id a)
                && references (map File_Data.file_id files) (File_Access.file_id a))
      FileAccess;
  incidents ←
    insert_checked
      (fun i => references (employee_ids_of employees)
                  (Security_Incidents.employee_id i))
      Security_Incidents_rows;
  responses ←
    insert_checked
      (fun r => references (map Security_Incidents.incident_id incidents)
                  (Incident_Response.incident_id r))
      Incident_Response_rows;
  mret
    {| Employee_Data_s := employees;
       Endpoint_Security_s := endpoints;
       Protocol_Data_s := Protocol_Data_rows;
       Access_Type_s := Access_Type_rows;
       Permissions_s := Permissions_rows;
       Detected_By_s := Detected_By_rows;
       Detection_Method_s := Detection_Method_rows;
       Roles_s := roles;
       Roles_Permissions_s := roles_permissions;
       Network_Usage_s := network;
       File_Data_s := files;
       File_Access_s := accesses;
       Security_Incidents_s := incidents;
       Incident_Response_s := responses |}.

(** The four tables the checks of the embedded SQL read. *)
Definition database_of (s : row_store) : database :=
  {| Employee_Data_t := Employee_Data_s s;
     File_Data_t := File_Data_s s;
     File_Access_t := File_Access_s s;
     Endpoint_Security_t := Endpoint_Security_s s |}.

(** An employee holds a role of the own department. *)
Definition role_of_own_department (e : Employee_Data.row) : bool :=
  match item department_roles (Employee_Data.Department e) with
  | Some roles => references (map fst roles) (Employee_Data.role_ID e)
  | None => false
  end.

(** Two rows that differ at most in [role_ID]. *)
Definition same_but_role (e e' : Employee_Data.row) : Prop :=
  e' = with_role (Employee_Data.role_ID e') e.

(** The FOREIGN KEY clauses of the schema, on a state of the row store. *)
Definition foreign_keys_hold (s : row_store) : bool :=
  let employees := employee_ids_of (Employee_Data_s s) in
  forallb
    (fun rp => references (map fst (Roles_s s)) (fst rp)
               && references (map fst (Permissions_s s)) (snd rp))
    (Roles_Permissions_s s)
  && forallb
       (fun d => match Endpoint_Security.employee_id d with
                 | Some i => references employees i
                 | None => true
                 end)
       (Endpoint_Security_s s)
  && forallb
       (fun n => references employees (Network_Usage.employee_id n)
                 && references (map fst (Protocol_Data_s s))
                      (Network_Usage.protocol_id n))
       (Network_Usage_s s)
  && forallb
       (fun a => references employees (File_Access.employee_id a)
                 && references (map fst (Access_Type_s s))
                      (File_Access.access_type_id a)
                 && references (map File_Data.file_id (File_Data_s s))
                      (File_Access.file_id a))
       (File_Access_s s)
  && forallb
       (fun i => references employees (Security_Incidents.employee_id i))
       (Security_Incidents_s s)
  && forallb
       (fun r => references
                   (map Security_Incidents.incident_id (Security_Incidents_s s))
                   (Incident_Response.incident_id r))
       (Incident_Response_s s).

(* ===================================================================== *)
(** * Part II: properties *)
(* ===================================================================== *)

Example like_Budget : Sql.like "%Budget%" "Q1_Budget_Review.xlsx" = true.
Proof. reflexivity. Qed.

Example like_budget_lower : Sql.like "%Budget%" "q1_budget.xlsx" = true.
Proof. reflexivity. Qed.

Example like_Sales : Sql.like "%Budget%" "Q1_Sales.xlsx" = false.
Proof. reflexivity. Qed.

Example hour_of_seed : hour_of "2024-03-25 07:32:15" = Some 7.
Proof. reflexivity. Qed.

(** ** Joins *)

Lemma join_In {A B : Type} (a : list A) (b : list B) (on : A -> B -> bool) x y :
  In (x, y) (Sql.join a b on) <-> In x a /\ In y b /\ on x y = true.
Proof.
  unfold Sql.join. rewrite in_flat_map. split.
  - intros (x0 & Hx & Hin). apply in_map_iff in Hin as (y0 & Heq & Hy).
    inversion Heq; subst. apply filter_In in Hy as [Hy Hon]. auto.
  - intros (Hx & Hy & Hon). exists x. split; [assumption|].
    apply in_map. apply filter_In. auto.
Qed.

(** ** Use case 1: the hour window *)














(** ** Use case 8: endpoint vulnerability *)

Lemma vuln_where_spec s e :
  vuln_where (s, e) = true <->
  (exists st, Endpoint_Security.antivirus_status s = Some st /\ st <> "Active") \/
  Endpoint_Security.os_version s = Some "XP" \/
  Endpoint_Security.os_version s = Some "7".
Proof.
  unfold vuln_where, Sql.ne, Sql.is_in. cbn [fst].
  destruct (Endpoint_Security.antivirus_status s) as [st|];
    destruct (Endpoint_Security.os_version s) as [v|];
    cbn [option_map existsb];
    try destruct (String.eqb_spec st "Active") as [Est|Est];
    try destruct (String.eqb_spec v "XP") as [Exp|Exp];
    try destruct (String.eqb_spec v "7") as [E7|E7];
    cbn; (split;
      [ first [ discriminate
              | intros _;
                first [ left; exists st; split; [reflexivity|assumption]
                      | right; left; congruence
                      | right; right; congruence ] ]
      | first [ reflexivity
              | intros [(st' & Hs & Hne)|[Hv|Hv]]; congruence ] ]).
Qed.

(** C9, as amended.  The endpoint query returns exactly the endpoint rows
    joined to their owning employee whose antivirus status is a recorded
    value other than "Active" (SQL's [!=]: a NULL status satisfies neither
    [=] nor [!=]) or whose OS version is "XP" or "7"; of the spec's three
    endpoints, Active/11 is not returned, Disabled/11 and Active/XP
    are. *)
Theorem query_vuln_flags :
  (forall db row,
     In row (query_vuln db) <->
     exists s e,
       In s (Endpoint_Security_t db) /\ In e (Employee_Data_t db) /\
       Endpoint_Security.employee_id s = Some (Employee_Data.employee_id e) /\
       row = (full_name e, Endpoint_Security.os_name s,
              Endpoint_Security.os_version s,
              Endpoint_Security.antivirus_status s) /\
       ((exists st, Endpoint_Security.antivirus_status s = Some st /\
                    st <> "Active") \/
        Endpoint_Security.os_version s = Some "XP" \/
        Endpoint_Security.os_version s = Some "7")) /\
  query_vuln endpoint_db =
    [("Bob Smith", Some "Windows", Some "11", Some "Disabled");
     ("Charlie Brown", Some "Windows", Some "XP", Some "Active")].
Proof.
  split; [|vm_compute; reflexivity].
  intros db row. unfold query_vuln. rewrite in_map_iff. split.
  - intros ([s e] & Hsel & Hin). apply filter_In in Hin as [Hj Hw].
    apply join_In in Hj as (Hs & He & Hon).
    apply vuln_where_spec in Hw.
    exists s, e. unfold vuln_on in Hon.
    destruct (Endpoint_Security.employee_id s) as [i|]; [|discriminate].
    apply Z.eqb_eq in Hon. subst i.
    unfold vuln_select in Hsel. simpl in Hsel. auto 10.
  - intros (s & e & Hs & He & Hid & -> & Hw).
    exists (s, e). split; [reflexivity|]. apply filter_In. split.
    + apply join_In. unfold vuln_on. rewrite Hid, Z.eqb_refl. auto.
    + apply vuln_where_spec. exact Hw.
Qed.

(** C9, counterexample.  A device on version 11 whose antivirus status is
    NULL has a status that is not "Active", yet the query does not return
    it. *)
Lemma query_vuln_skips_unrecorded_status :
  Endpoint_Security.antivirus_status (endpoint 1 (Some "11") None)
    <> Some "Active" /\
  Sql.join (Endpoint_Security_t unrecorded_status_db)
    (Employee_Data_t unrecorded_status_db) vuln_on
    = [(endpoint 1 (Some "11") None, employee 1 "Alice" "Johnson" "Finance")] /\
  query_vuln unrecorded_status_db = [].
Proof. split; [discriminate|split; reflexivity]. Qed.

(** ** Use case 7: what LIKE '%w%' decides *)













(** ** Insertion sort: permutation, order, stability under a filter *)

Section Sort_facts.
Context {A : Type} (le : A -> A -> bool).
Hypothesis le_total : forall a b, le a b = true \/ le b a = true.
Hypothesis le_trans :
  forall a b c, le a b = true -> le b c = true -> le a c = true.

Let R (a b : A) : Prop := le a b = true.

Lemma insert_sorted_perm x l : Permutation (insert_sorted le x l) (x :: l).
Proof using Type.
  induction l as [|y l IH]; simpl; [reflexivity|].
  destruct (le x y); [reflexivity|].
  rewrite IH. apply perm_swap.
Qed.

Lemma stable_sort_perm l : Permutation (stable_sort le l) l.
Proof using Type.
  induction l as [|x l IH]; simpl; [reflexivity|].
  rewrite insert_sorted_perm. now constructor.
Qed.

Lemma stable_sort_In x l : In x (stable_sort le l) <-> In x l.
Proof using Type.
  split; apply Permutation_in;
    [apply stable_sort_perm | symmetry; apply stable_sort_perm].
Qed.

Lemma insert_sorted_sorted x l :
  StronglySorted R l -> StronglySorted R (insert_sorted le x l).
Proof using le_total le_trans.
  induction 1 as [|y l Hl IH Hy]; simpl.
  - repeat constructor.
  - destruct (le x y) eqn:Hxy.
    + constructor; [constructor; assumption|].
      constructor; [exact Hxy|].
      eapply List.Forall_impl; [|exact Hy]. intros z Hz. exact (le_trans _ _ _ Hxy Hz).
    + constructor; [exact IH|].
      assert (Hyx : le y x = true) by (destruct (le_total x y); congruence).
      eapply Permutation_Forall; [symmetry; apply insert_sorted_perm|].
      constructor; assumption.
Qed.

Lemma stable_sort_sorted l : StronglySorted R (stable_sort le l).
Proof using le_total le_trans.
  induction l as [|x l IH]; simpl; [constructor|].
  apply insert_sorted_sorted, IH.
Qed.

Lemma filter_insert_sorted (p : A -> bool) x l :
  StronglySorted R l ->
  List.filter p (insert_sorted le x l) =
  if p x then insert_sorted le x (List.filter p l) else List.filter p l.
Proof using le_trans.
  induction 1 as [|y l Hl IH Hy]; simpl.
  - destruct (p x); reflexivity.
  - destruct (le x y) eqn:Hxy; simpl.
    + destruct (p x) eqn:Hpx; destruct (p y) eqn:Hpy; simpl;
        rewrite ?Hxy; try reflexivity.
      destruct (List.filter p l) as [|z f] eqn:Hf; simpl; [reflexivity|].
      assert (Hz : In z l).
      { eapply (proj1 (filter_In p z l)). rewrite Hf. now left. }
      rewrite List.Forall_forall in Hy.
      now rewrite (le_trans _ _ _ Hxy (Hy z Hz)).
    + rewrite IH. destruct (p x) eqn:Hpx; destruct (p y) eqn:Hpy; simpl;
        rewrite ?Hxy; reflexivity.
Qed.

Lemma filter_stable_sort (p : A -> bool) l :
  List.filter p (stable_sort le l) = stable_sort le (List.filter p l).
Proof using le_total le_trans.
  induction l as [|x l IH]; simpl; [reflexivity|].
  rewrite filter_insert_sorted by apply stable_sort_sorted.
  rewrite IH. destruct (p x); reflexivity.
Qed.

End Sort_facts.

(** ** Use case 3: repeated failed logins *)

Lemma group_count_lookup docs id :
  group_count docs !! id =
  match occurrences id docs with
  | O => None
  | S n => Some (S n)
  end.
Proof.
  unfold occurrences. induction docs as [|d docs IH]; cbn [group_count fold_right].
  - apply lookup_empty.
  - fold (group_count docs). cbn [List.filter].
    destruct (String.eqb_spec (Access_logs._ID d) id) as [Heq|Hne].
    + rewrite Heq, lookup_insert_eq, IH. cbn [length].
      destruct (length _); reflexivity.
    + rewrite lookup_insert_ne by exact Hne. exact IH.
Qed.

Lemma failed_logins_occurrences id docs :
  failed_logins id docs = occurrences id (List.filter is_Failed docs).
Proof.
  unfold failed_logins, occurrences. f_equal.
  induction docs as [|d docs IH]; simpl; [reflexivity|].
  destruct (is_Failed d); simpl;
    destruct (String.eqb (Access_logs._ID d) id); simpl; now rewrite IH.
Qed.

Lemma NoDup_fst_filter {K V : Type} (p : K * V -> bool) (l : list (K * V)) :
  NoDup (map fst l) -> NoDup (map fst (List.filter p l)).
Proof.
  induction l as [|x l IH]; simpl; [auto|].
  intros Hnd. inversion Hnd as [|? ? Hnotin Hnd']; subst.
  destruct (p x); simpl; [|auto].
  constructor; [|auto]. intros Hin. apply Hnotin.
  apply list_elem_of_In. apply list_elem_of_In in Hin.
  apply in_map_iff in Hin as (y & Hy & Hin). apply filter_In in Hin as [Hin _].
  apply in_map_iff. eauto.
Qed.

Lemma count_desc_total a b : count_desc a b = true \/ count_desc b a = true.
Proof. unfold count_desc. rewrite !Nat.leb_le. lia. Qed.

Lemma count_desc_trans a b c :
  count_desc a b = true -> count_desc b c = true -> count_desc a c = true.
Proof. unfold count_desc. rewrite !Nat.leb_le. lia. Qed.

(** C7.  The repeated-failed-logins pipeline returns exactly the subject
    ids with two or more "Failed" documents, each once and with its number
    of failures, in order of descending count; in the example EMP002 (three
    failures) comes before EMP001 (two) and EMP003 (one) is absent. *)
Theorem pipeline_repeated_failures :
  (forall docs id n,
     In (id, n) (pipeline docs) <-> n = failed_logins id docs /\ 2 <= n) /\
  (forall docs, NoDup (map fst (pipeline docs))) /\
  (forall docs,
     StronglySorted (fun a b => snd b <= snd a) (pipeline docs)) /\
  pipeline failed_logins_example = [("EMP002", 3); ("EMP001", 2)].
Proof.
  split; [|split; [|split]].
  - intros docs id n. unfold pipeline.
    rewrite stable_sort_In, filter_In, <- list_elem_of_In,
      elem_of_map_to_list, group_count_lookup, <- failed_logins_occurrences.
    unfold gte_2. cbn [snd]. rewrite Nat.leb_le.
    destruct (failed_logins id docs); split.
    + intros [H _]. discriminate H.
    + intros [-> H]. lia.
    + intros [[= <-] H]. auto.
    + intros [-> H]. auto.
  - intros docs. unfold pipeline.
    rewrite (Permutation_map fst (stable_sort_perm count_desc _)).
    apply NoDup_fst_filter. apply (NoDup_fst_map_to_list (M := gmap string)).
  - intros docs. unfold pipeline.
    eapply StronglySorted_ind
      with (P := StronglySorted (fun a b => snd b <= snd a));
      [constructor| |apply (stable_sort_sorted count_desc count_desc_total count_desc_trans)].
    intros a l _ IH Ha. constructor; [exact IH|].
    eapply List.Forall_impl; [|exact Ha]. intros b Hb. now apply Nat.leb_le.
  - vm_compute. reflexivity.
Qed.

(** ** Use case 4: high-risk phishing clicks *)

Lemma query_phish_high_risk d : query_phish d = true <-> high_risk d.
Proof.
  unfold query_phish, high_risk.
  destruct (Phishing_attacks.ANOMALY_SCORE d) as [x|];
    destruct (Phishing_attacks.LINK_CLICKED d) as [[|]|].
  - rewrite andb_true_r. split; [eauto|]. now intros (y & [= <-] & H & _).
  - rewrite andb_false_r. split; [discriminate|]. now intros (y & _ & _ & H).
  - split; [discriminate|]. now intros (y & _ & _ & H).
  - split; [discriminate|]. now intros (y & H & _).
  - split; [discriminate|]. now intros (y & H & _).
  - split; [discriminate|]. now intros (y & H & _).
Qed.

(** C8.  The high-risk phishing count takes exactly the documents whose
    anomaly score is strictly above 0.8 and whose link was clicked, one for
    each; a document with score exactly 0.8 adds nothing, whether clicked
    or not, and a clicked document with score 0.81 adds one. *)
Theorem victim_count_strict :
  (forall d, query_phish d = true <-> high_risk d) /\
  victim_count [] = 0 /\
  (forall d coll,
     victim_count (d :: coll) =
     (if query_phish d then 1 else 0) + victim_count coll) /\
  (forall clicked coll,
     victim_count (phishing 0.8 clicked :: coll) = victim_count coll) /\
  (forall coll,
     victim_count (phishing 0.81 true :: coll) = S (victim_count coll)).
Proof.
  split; [exact query_phish_high_risk|]. split; [reflexivity|].
  assert (Hcons : forall d coll,
             victim_count (d :: coll) =
             (if query_phish d then 1 else 0) + victim_count coll).
  { intros d coll. unfold victim_count, count_documents. cbn [List.filter].
    destruct (query_phish d); reflexivity. }
  split; [exact Hcons|]. split.
  - intros clicked coll. rewrite Hcons.
    replace (query_phish (phishing 0.8 clicked)) with false; [reflexivity|].
    destruct clicked; vm_compute; reflexivity.
  - intros coll. rewrite Hcons.
    replace (query_phish (phishing 0.81 true)) with true; [reflexivity|].
    vm_compute; reflexivity.
Qed.

(** ** The order of [sort_values] *)

Lemma ascii_compare_refl c : Ascii.compare c c = Eq.
Proof. unfold Ascii.compare. apply N.compare_refl. Qed.

Lemma ascii_compare_lt_trans a b c :
  Ascii.compare a b = Lt -> Ascii.compare b c = Lt -> Ascii.compare a c = Lt.
Proof. unfold Ascii.compare. rewrite !N.compare_lt_iff. lia. Qed.

Lemma string_compare_refl s : String.compare s s = Eq.
Proof.
  induction s as [|c s IH]; simpl; [reflexivity|].
  now rewrite ascii_compare_refl.
Qed.

Lemma string_compare_lt_trans a : forall b c,
  String.compare a b = Lt -> String.compare b c = Lt -> String.compare a c = Lt.
Proof.
  induction a as [|x a IH]; intros [|y b] [|z c]; simpl;
    try discriminate; try reflexivity.
  destruct (Ascii.compare x y) eqn:Hxy; destruct (Ascii.compare y z) eqn:Hyz;
    try discriminate; intros Hab Hbc.
  - apply Ascii.compare_eq_iff in Hxy, Hyz. subst.
    rewrite ascii_compare_refl. eauto.
  - apply Ascii.compare_eq_iff in Hxy. subst. now rewrite Hyz.
  - apply Ascii.compare_eq_iff in Hyz. subst. now rewrite Hxy.
  - now rewrite (ascii_compare_lt_trans _ _ _ Hxy Hyz).
Qed.

Lemma by_ID_TIMESTAMP_total a b :
  by_ID_TIMESTAMP a b = true \/ by_ID_TIMESTAMP b a = true.
Proof.
  unfold by_ID_TIMESTAMP.
  rewrite (String.compare_antisym (Access_logs._ID a) (Access_logs._ID b)).
  destruct (String.compare (Access_logs._ID b) (Access_logs._ID a));
    simpl; auto.
  rewrite !Z.leb_le. lia.
Qed.

Lemma by_ID_TIMESTAMP_trans a b c :
  by_ID_TIMESTAMP a b = true -> by_ID_TIMESTAMP b c = true ->
  by_ID_TIMESTAMP a c = true.
Proof.
  unfold by_ID_TIMESTAMP.
  destruct (String.compare (Access_logs._ID a) (Access_logs._ID b)) eqn:Hab;
    destruct (String.compare (Access_logs._ID b) (Access_logs._ID c)) eqn:Hbc;
    try discriminate; intros H1 H2.
  - apply String.compare_eq_iff in Hab, Hbc. rewrite Hab, Hbc.
    rewrite string_compare_refl. apply Z.leb_le.
    apply Z.leb_le in H1, H2. lia.
  - apply String.compare_eq_iff in Hab. now rewrite Hab, Hbc.
  - apply String.compare_eq_iff in Hbc. now rewrite <- Hbc, Hab.
  - now rewrite (string_compare_lt_trans _ _ _ Hab Hbc).
Qed.

Lemma by_ID_TIMESTAMP_same s a b :
  of_subject s a = true -> of_subject s b = true ->
  by_ID_TIMESTAMP a b = (Access_logs.TIMESTAMP a <=? Access_logs.TIMESTAMP b)%Z.
Proof.
  unfold of_subject, by_ID_TIMESTAMP. rewrite !String.eqb_eq.
  intros -> ->. now rewrite string_compare_refl.
Qed.

Lemma sort_values_sorted df :
  StronglySorted (fun a b => by_ID_TIMESTAMP a b = true) (sort_values df).
Proof.
  apply stable_sort_sorted;
    [exact by_ID_TIMESTAMP_total | exact by_ID_TIMESTAMP_trans].
Qed.

Lemma sort_values_of_subject s logs :
  List.filter (of_subject s) (sort_values logs) =
  sort_values (List.filter (of_subject s) logs).
Proof.
  apply filter_stable_sort;
    [exact by_ID_TIMESTAMP_total | exact by_ID_TIMESTAMP_trans].
Qed.

Lemma sort_values_group_sorted s g :
  Forall (fun r => of_subject s r = true) g ->
  StronglySorted
    (fun a b => (Access_logs.TIMESTAMP a <= Access_logs.TIMESTAMP b)%Z)
    (sort_values g).
Proof.
  intros Hg.
  assert (Hs : Forall (fun r => of_subject s r = true) (sort_values g)).
  { eapply Permutation_Forall; [symmetry; apply stable_sort_perm|exact Hg]. }
  pose proof (sort_values_sorted g) as Hsorted.
  induction Hsorted as [|a l Hl IH Ha]; [constructor|].
  inversion Hs as [|? ? Hsa Hsl]; subst.
  constructor; [auto|].
  rewrite List.Forall_forall in *. intros b Hb.
  specialize (Ha b Hb). rewrite (by_ID_TIMESTAMP_same s) in Ha by auto.
  now apply Z.leb_le.
Qed.

(** ** Use case 6: the shift within groups *)

Lemma find_same_ID_of_subject s r seen :
  of_subject s r = true ->
  List.find (same_ID r) (List.filter (of_subject s) seen) =
  List.find (same_ID r) seen.
Proof.
  unfold of_subject, same_ID. rewrite String.eqb_eq. intros Hr.
  induction seen as [|x seen IH]; simpl; [reflexivity|].
  destruct (String.eqb_spec (Access_logs._ID x) s) as [Hx|Hx]; simpl.
  - now rewrite IH.
  - rewrite IH, Hr.
    destruct (String.eqb_spec s (Access_logs._ID x)); congruence.
Qed.

Lemma shift_Country_of_subject s df : forall seen,
  List.filter (fun r => of_subject s (fst r))
    (combine df (shift_Country seen df)) =
  combine (List.filter (of_subject s) df)
    (shift_Country (List.filter (of_subject s) seen)
       (List.filter (of_subject s) df)).
Proof.
  induction df as [|r df IH]; intros seen; simpl; [reflexivity|].
  rewrite IH. simpl. destruct (of_subject s r) eqn:Hr; simpl; [|reflexivity].
  now rewrite find_same_ID_of_subject.
Qed.

Lemma shift_Country_group s g :
  Forall (fun r => of_subject s r = true) g ->
  forall q seen,
    of_subject s q = true ->
    combine g (shift_Country (q :: seen) g) = combine g (map Country (q :: g)).
Proof.
  induction 1 as [|r g Hr Hg IH]; intros q seen Hq; [reflexivity|].
  cbn [shift_Country List.find map combine].
  replace (same_ID r q) with true.
  - f_equal. rewrite (IH r (q :: seen) Hr). reflexivity.
  - unfold same_ID, of_subject in *. apply String.eqb_eq in Hr, Hq.
    symmetry. apply String.eqb_eq. congruence.
Qed.

Lemma combine_map_snd {A B C : Type} (f : B -> C) (l : list A) : forall l',
  combine l (map f l') = map (fun p => (fst p, f (snd p))) (combine l l').
Proof.
  induction l as [|a l IH]; intros [|b l']; simpl; try reflexivity.
  now rewrite IH.
Qed.

Lemma filter_map_swap {A B : Type} (p : B -> bool) (f : A -> B) l :
  List.filter p (map f l) = map f (List.filter (fun x => p (f x)) l).
Proof.
  induction l as [|a l IH]; simpl; [reflexivity|].
  destruct (p (f a)); simpl; now rewrite IH.
Qed.

Lemma filter_filter_swap {A : Type} (p q : A -> bool) l :
  List.filter p (List.filter q l) = List.filter q (List.filter p l).
Proof.
  induction l as [|a l IH]; simpl; [reflexivity|].
  destruct (p a) eqn:Hp; destruct (q a) eqn:Hq; simpl;
    rewrite ?Hp, ?Hq, IH; reflexivity.
Qed.

Lemma changed_iff a b :
  changed (a, b) = notnull b && negb (scalar_eqb (Country a) b).
Proof.
  unfold changed, ne, notnull. cbn [fst snd].
  destruct (Country a), b; cbn [isnull negb orb andb];
    rewrite ?andb_true_r; reflexivity.
Qed.

Lemma with_Prev_Country_group s g :
  Forall (fun r => of_subject s r = true) g ->
  List.filter changed (with_Prev_Country g) =
  map (fun p => (fst p, Country (snd p)))
    (List.filter
       (fun p => notnull (Country (snd p)) &&
                 negb (scalar_eqb (Country (fst p)) (Country (snd p))))
       (adjacent g)).
Proof.
  unfold with_Prev_Country, adjacent.
  intros Hg. destruct Hg as [|r g Hr Hg]; [reflexivity|].
  cbn [shift_Country List.find combine tl List.filter].
  rewrite (shift_Country_group s g Hg r [] Hr).
  replace (changed (r, SNull)) with false
    by (rewrite changed_iff; reflexivity).
  rewrite combine_map_snd, filter_map_swap. f_equal.
  apply filter_ext. intros [e q]. apply changed_iff.
Qed.

Lemma of_subject_filter s logs :
  Forall (fun r => of_subject s r = true) (List.filter (of_subject s) logs).
Proof.
  apply List.Forall_forall. intros r Hr. now apply filter_In in Hr.
Qed.

Lemma jumps_of_group s logs :
  jumps_of s logs =
  List.filter changed
    (with_Prev_Country (sort_values (List.filter (of_subject s) logs))).
Proof.
  unfold jumps_of, impossible, with_Prev_Country at 1.
  rewrite filter_filter_swap, shift_Country_of_subject.
  now rewrite sort_values_of_subject.
Qed.

(** C6, as amended.  For each subject [s], with [g] its access events in
    ascending time order, the check flags exactly the events of [g] that
    have an event just before them whose country is not null and differs
    from their own (a null country of the later event counts as
    different); the first event of [g] has no event before it and is never
    flagged, and the time between the two events plays no part. *)
Theorem impossible_adjacent_changes logs s :
  let g := sort_values (List.filter (of_subject s) logs) in
  Permutation g (List.filter (of_subject s) logs) /\
  StronglySorted
    (fun a b => (Access_logs.TIMESTAMP a <= Access_logs.TIMESTAMP b)%Z) g /\
  jumps_of s logs =
  map (fun p => (fst p, Country (snd p)))
    (List.filter
       (fun p => notnull (Country (snd p)) &&
                 negb (scalar_eqb (Country (fst p)) (Country (snd p))))
       (adjacent g)).
Proof.
  intros g. split; [apply stable_sort_perm|]. split.
  - apply (sort_values_group_sorted s), of_subject_filter.
  - rewrite jumps_of_group. apply (with_Prev_Country_group s).
    eapply Permutation_Forall; [symmetry; apply stable_sort_perm|].
    apply of_subject_filter.
Qed.

(** C6, counterexample.  Of two logins of EMP001, the first without a
    country and the second from the UK, the countries differ, yet the
    check flags nothing. *)
Lemma impossible_skips_unknown_predecessor :
  jumps_of "EMP001" unknown_then_UK = [] /\
  country_changes (sort_values (List.filter (of_subject "EMP001") unknown_then_UK))
  = [(access_log "EMP001" 2 (Some (Dict (location "London" "UK"))), SNull)] /\
  jumps_of "EMP001" unknown_then_UK <>
  country_changes (sort_values (List.filter (of_subject "EMP001") unknown_then_UK)).
Proof.
  assert (H1 : jumps_of "EMP001" unknown_then_UK = [])
    by (vm_compute; reflexivity).
  assert (H2 :
    country_changes
      (sort_values (List.filter (of_subject "EMP001") unknown_then_UK))
    = [(access_log "EMP001" 2 (Some (Dict (location "London" "UK"))), SNull)])
    by (vm_compute; reflexivity).
  split; [exact H1|]. split; [exact H2|]. rewrite H1, H2. discriminate.
Qed.

(** ** Use case 6: documents without a country

    As soon as one document has a LOCATION the check returns; a document
    whose LOCATION is absent, no dict, or a dict without "Country" has a
    null country, is flagged after an event with a country and shields the
    event after it. *)

Lemma get_Country_missing :
  get_Country None = SNull /\
  (forall v, get_Country (Some (Scalar v)) = SNull) /\
  (forall d : gmap string scalar,
     d !! "Country" = None -> get_Country (Some (Dict d)) = SNull).
Proof.
  split; [reflexivity|]. split; [reflexivity|].
  intros d Hd. unfold get_Country. now rewrite Hd.
Qed.

Lemma impossible_travel_returns logs :
  has_LOCATION logs = true -> exists r, impossible_travel logs = Returned r.
Proof.
  intros H. unfold impossible_travel. destruct logs as [|d logs].
  - eauto.
  - rewrite H. destruct (impossible (d :: logs)); eauto.
Qed.

Lemma changed_null_Country e prev :
  Country e = SNull -> changed (e, prev) = notnull prev.
Proof. intros H. rewrite changed_iff, H. now destruct prev. Qed.

Lemma changed_after_null e : changed (e, SNull) = false.
Proof. now rewrite changed_iff. Qed.

Example impossible_travel_partly_located :
  impossible_travel partly_located =
  Returned (Alert [(access_log "EMP001" 2 None, SStr "UK")]).
Proof. vm_compute. reflexivity. Qed.

(** ** The seeded access logs *)

Lemma scalar_eqb_eq a b : scalar_eqb a b = true <-> a = b.
Proof.
  destruct a, b; simpl; try (split; [discriminate|congruence]).
  - split; reflexivity.
  - rewrite String.eqb_eq. split; congruence.
  - rewrite Z.eqb_eq. split; congruence.
Qed.

Lemma StronglySorted_after {A : Type} (R : A -> A -> Prop) X t Y :
  StronglySorted R (X ++ t :: Y)%list -> List.Forall (R t) Y.
Proof.
  induction X as [|x X IH]; simpl; intros H;
    apply StronglySorted_inv in H as [H1 H2]; auto.
Qed.

Lemma adjacent_In P q e S : In (e, q) (adjacent (P ++ q :: e :: S)%list).
Proof.
  unfold adjacent. induction P as [|p P IH]; simpl.
  - now left.
  - destruct P as [|p' P]; simpl in *; auto.
Qed.

Lemma country_change_between M : forall a b Y,
  Country a <> Country b ->
  exists P q e S,
    (a :: M ++ b :: Y = P ++ q :: e :: S)%list /\ Country q <> Country e.
Proof.
  induction M as [|m M IH]; intros a b Y Hab.
  - exists [], a, b, Y. auto.
  - destruct (scalar_eqb (Country a) (Country m)) eqn:Ham.
    + apply scalar_eqb_eq in Ham. rewrite Ham in Hab.
      destruct (IH m b Y Hab) as (P & q & e & S & Heq & Hqe).
      exists (a :: P), q, e, S. simpl in *. now rewrite Heq.
    + exists [], a, m, (M ++ b :: Y)%list. split; [reflexivity|].
      intros H. apply scalar_eqb_eq in H. congruence.
Qed.

Lemma Country_located d :
  In (choice_location d) locations -> Country (bulk_entry d) <> SNull.
Proof.
  unfold Country, bulk_entry, locations. cbn [Access_logs.LOCATION get_Country In].
  intros [<-|[<-|[<-|[<-|[<-|[<-|[]]]]]]]; vm_compute; discriminate.
Qed.

Lemma jumps_of_adjacent s logs :
  jumps_of s logs =
  map (fun p => (fst p, Country (snd p)))
    (List.filter
       (fun p => notnull (Country (snd p)) &&
                 negb (scalar_eqb (Country (fst p)) (Country (snd p))))
       (adjacent (sort_values (List.filter (of_subject s) logs)))).
Proof.
  rewrite jumps_of_group. apply (with_Prev_Country_group s).
  eapply Permutation_Forall; [symmetry; apply stable_sort_perm|].
  apply of_subject_filter.
Qed.

Lemma seeded_at_least_one r :
  well_drawn r -> 1 <= length (jumps_of "EMP001" (access_logs_data r)).
Proof.
  intros (Hclock & _ & Hbulk).
  rewrite jumps_of_adjacent.
  set (logs := List.filter (of_subject "EMP001") (access_logs_data r)).
  set (g := sort_values logs).
  assert (Hperm : Permutation g logs) by apply stable_sort_perm.
  assert (Hsorted : StronglySorted
            (fun a b => (Access_logs.TIMESTAMP a <= Access_logs.TIMESTAMP b)%Z) g)
    by apply (sort_values_group_sorted "EMP001"), of_subject_filter.
  assert (Hlocated : forall d, In d g -> Country d <> SNull).
  { intros d Hd. apply (Permutation_in _ Hperm) in Hd.
    apply filter_In in Hd as [Hd _]. destruct Hd as [<-|[<-|Hd]].
    - vm_compute. discriminate.
    - vm_compute. discriminate.
    - apply in_map_iff in Hd as (x & <- & Hx).
      rewrite List.Forall_forall in Hbulk.
      apply Country_located, (Hbulk x Hx). }
  assert (HL : In (London_entry r) g).
  { apply (Permutation_in _ (Permutation_sym Hperm)).
    apply filter_In. split; [now left|reflexivity]. }
  assert (HT : In (Tokyo_entry r) g).
  { apply (Permutation_in _ (Permutation_sym Hperm)).
    apply filter_In. split; [right; now left|reflexivity]. }
  apply in_split in HT as (X & Y & HXY).
  assert (HLX : In (London_entry r) X).
  { rewrite HXY in HL. apply in_app_or in HL as [H|[H|H]]; [exact H| |].
    - apply (f_equal Country) in H. vm_compute in H. discriminate H.
    - rewrite HXY in Hsorted. apply StronglySorted_after in Hsorted.
      rewrite List.Forall_forall in Hsorted. specialize (Hsorted _ H).
      unfold Tokyo_entry, London_entry, hours in Hsorted.
      cbn [Access_logs.TIMESTAMP] in Hsorted. lia. }
  apply in_split in HLX as (A & M & HAM).
  assert (Hg : g = (A ++ (London_entry r :: M ++ Tokyo_entry r :: Y))%list).
  { rewrite HXY, HAM, <- app_assoc. reflexivity. }
  destruct (country_change_between M (London_entry r) (Tokyo_entry r) Y)
    as (P & q & e & S & Heq & Hqe).
  { vm_compute. discriminate. }
  rewrite Heq, app_assoc in Hg.
  pose proof (adjacent_In (A ++ P)%list q e S) as Hin. rewrite <- Hg in Hin.
  assert (Hq : In q g).
  { rewrite Hg. apply in_or_app. right. now left. }
  rewrite length_map.
  match goal with |- 1 <= length ?fl =>
    set (flagged := fl); assert (Hf : In (e, q) flagged) end.
  { apply filter_In. split; [exact Hin|]. cbn [fst snd].
    apply andb_true_iff. split.
    - specialize (Hlocated q Hq). unfold notnull.
      destruct (Country q); [congruence|reflexivity|reflexivity].
    - apply negb_true_iff.
      destruct (scalar_eqb (Country e) (Country q)) eqn:Heqb; [|reflexivity].
      apply scalar_eqb_eq in Heqb. congruence. }
  destruct flagged; [destruct Hf|simpl; lia].
Qed.

Lemma seeded_alone r :
  (now_London r <= now_Tokyo r)%Z ->
  List.Forall (fun d => choice_id d <> "EMP001") (bulk r) ->
  jumps_of "EMP001" (access_logs_data r) = [(Tokyo_entry r, SStr "UK")].
Proof.
  intros Hclock Hnone. rewrite jumps_of_group.
  assert (Hfilter :
    List.filter (of_subject "EMP001") (access_logs_data r) =
    [London_entry r; Tokyo_entry r]).
  { unfold access_logs_data. cbn [List.filter].
    change (of_subject "EMP001" (London_entry r)) with true.
    change (of_subject "EMP001" (Tokyo_entry r)) with true.
    cbn iota. do 2 f_equal.
    induction Hnone as [|d l Hd Hl IH]; simpl; [reflexivity|].
    unfold of_subject at 1. cbn [bulk_entry Access_logs._ID].
    destruct (String.eqb_spec (choice_id d) "EMP001"); [contradiction|exact IH]. }
  rewrite Hfilter. unfold sort_values, stable_sort.
  cbn [fold_right insert_sorted].
  replace (by_ID_TIMESTAMP (London_entry r) (Tokyo_entry r)) with true.
  - vm_compute. reflexivity.
  - symmetry. unfold by_ID_TIMESTAMP, London_entry, Tokyo_entry, hours.
    cbn [Access_logs._ID Access_logs.TIMESTAMP].
    rewrite string_compare_refl. apply Z.leb_le. lia.
Qed.

(** C1, as amended.  After a seeding run the check reports at least one
    flagged transition for EMP001; it reports exactly one, the Tokyo entry
    after the London one, when none of the 200 bulk entries was drawn for
    EMP001. *)
Theorem seeded_EMP001_jumps r :
  well_drawn r ->
  1 <= length (jumps_of "EMP001" (access_logs_data r)) /\
  (List.Forall (fun d => choice_id d <> "EMP001") (bulk r) ->
   jumps_of "EMP001" (access_logs_data r) = [(Tokyo_entry r, SStr "UK")]).
Proof.
  intros Hr. split; [now apply seeded_at_least_one|].
  destruct Hr as (Hclock & _). now apply seeded_alone.
Qed.

Lemma drawn_in_range id ago loc :
  existsb (String.eqb id) all_ids = true ->
  (0 <=? ago)%Z && (ago <=? 30)%Z = true ->
  In loc locations ->
  (0 <= now (drawn id ago loc))%Z /\
  In (choice_id (drawn id ago loc)) all_ids /\
  (0 <= randint_days (drawn id ago loc) <= 30)%Z /\
  In (choice_location (drawn id ago loc)) locations /\
  In (choice_status (drawn id ago loc)) statuses.
Proof.
  intros Hid Hago Hloc. cbn [drawn now choice_id randint_days choice_location choice_status].
  apply existsb_exists in Hid as (x & Hx & Hid). apply String.eqb_eq in Hid.
  apply andb_true_iff in Hago as [H1 H2]. apply Z.leb_le in H1, H2.
  subst x. repeat split; auto; try lia. now left.
Qed.

Lemma run_without_EMP001_drawn_well_drawn : well_drawn run_without_EMP001_drawn.
Proof.
  split; [cbn; lia|]. split; [reflexivity|].
  apply List.Forall_forall. intros d Hd. apply repeat_spec in Hd. subst d.
  apply drawn_in_range; [reflexivity|reflexivity|].
  right; right; right; now left.
Qed.

Lemma run_with_EMP001_drawn_well_drawn : well_drawn run_with_EMP001_drawn.
Proof.
  split; [cbn; lia|]. split; [reflexivity|].
  constructor.
  - apply drawn_in_range; [reflexivity|reflexivity|].
    right; right; now left.
  - apply List.Forall_forall. intros d Hd. apply repeat_spec in Hd. subst d.
    apply drawn_in_range; [reflexivity|reflexivity|].
    right; right; right; now left.
Qed.

(** C1, witness: a run without a draw of EMP001 reports the one transition
    to Tokyo. *)
Lemma seeded_EMP001_jumps_witness :
  well_drawn run_without_EMP001_drawn /\
  1 <= length (jumps_of "EMP001" (access_logs_data run_without_EMP001_drawn)) /\
  jumps_of "EMP001" (access_logs_data run_without_EMP001_drawn) =
  [(Tokyo_entry run_without_EMP001_drawn, SStr "UK")].
Proof.
  split; [exact run_without_EMP001_drawn_well_drawn|].
  destruct (seeded_EMP001_jumps run_without_EMP001_drawn
              run_without_EMP001_drawn_well_drawn) as [H1 H2].
  split; [exact H1|]. apply H2.
  apply List.Forall_forall. intros d Hd. apply repeat_spec in Hd. subst d.
  discriminate.
Defined.

(** C1, counterexample.  In a run whose bulk loop draws EMP001 once, in
    Berlin a day before, the check reports two flagged transitions for
    EMP001 (Germany to UK, UK to Japan), not one. *)
Lemma seeded_EMP001_two_jumps :
  well_drawn run_with_EMP001_drawn /\
  length (jumps_of "EMP001" (access_logs_data run_with_EMP001_drawn)) = 2 /\
  length (jumps_of "EMP001" (access_logs_data run_with_EMP001_drawn)) <> 1.
Proof.
  split; [exact run_with_EMP001_drawn_well_drawn|].
  assert (H : length (jumps_of "EMP001" (access_logs_data run_with_EMP001_drawn)) = 2)
    by (vm_compute; reflexivity).
  split; [exact H|]. rewrite H. discriminate.
Qed.

(** ** The scripts: what is caught and what ends a run *)

Lemma print_only_prints x : only_prints (print x).
Proof. intros p. reflexivity. Qed.

Lemma then_only_prints (m k : script unit) p :
  only_prints m ->
  (m;; k) p =
  k {| stdout := (stdout p ++ transcript m)%list; mongoclient := mongoclient p |}.
Proof.
  intros Hm. unfold mbind, script_bind, bind. now rewrite (Hm p).
Qed.

Ltac step_script :=
  cbv beta iota delta
    [mbind script_bind bind print call try_except error transcript run
     fst snd stdout mongoclient];
  rewrite <- ?app_assoc; reflexivity.

Lemma frame_only_prints (heading nothing : string) (read : outcome DataFrame) :
  only_prints
    (print (Line heading);;
     try_except
       (df ← call read;
        if negb (empty df) then print (Table df) else print (Line nothing))
       error).
Proof.
  intros p. destruct read as [e|df]; [step_script|].
  destruct (empty df) eqn:Hdf;
    cbv beta iota delta
      [mbind script_bind bind print call try_except error transcript run
       fst snd stdout mongoclient];
    rewrite Hdf; cbn [negb]; rewrite <- ?app_assoc; reflexivity.
Qed.

Lemma use_cases_only_print a :
  List.Forall (fun use_case => only_prints (use_case a)) use_cases.
Proof.
  destruct a as [r1 r2 r3 r4 r5 r6 r7 r8]. unfold use_cases.
  repeat constructor.
  - apply frame_only_prints.
  - intros p. unfold use_case_2. cbn [read_sla].
    destruct r2; step_script.
  - intros p. unfold use_case_3. cbn [aggregate].
    destruct r3 as [e|[|r results]]; step_script.
  - intros p. unfold use_case_4. cbn [count_phish].
    destruct r4; step_script.
  - apply frame_only_prints.
  - intros p. unfold use_case_6. cbn [find_logs].
    destruct r6 as [e|logs]; [step_script|].
    destruct (impossible_travel logs) as [e|[| |flagged]] eqn:Hlogs;
      cbv beta iota delta
        [mbind script_bind bind print call try_except error transcript run
         fst snd stdout mongoclient];
      rewrite Hlogs; rewrite <- ?app_assoc; reflexivity.
  - apply frame_only_prints.
  - intros p. unfold use_case_8. cbn [read_vuln].
    destruct r8 as [e|df]; [step_script|].
    destruct (empty df) eqn:Hdf;
      cbv beta iota delta
        [mbind script_bind bind print call try_except error transcript run
         fst snd stdout mongoclient];
      rewrite Hdf; cbn [negb]; rewrite <- ?app_assoc; reflexivity.
Qed.

Lemma analysis_connected today a :
  run (analysis today (Returned tt) (Returned tt) a) =
  ((preamble today ++
    concat (map (fun use_case => transcript (use_case a)) use_cases) ++
    closing)%list,
   Finished).
Proof.
  pose proof (use_cases_only_print a) as Huc. unfold use_cases in Huc.
  repeat match type of Huc with
         | List.Forall _ (_ :: _) =>
             let H := fresh "H" in
             apply List.Forall_cons_iff in Huc as [H Huc]
         end.
  unfold run, analysis.
  repeat (rewrite then_only_prints by (intros p; reflexivity)).
  repeat (rewrite then_only_prints by assumption).
  repeat (rewrite then_only_prints by apply print_only_prints).
  rewrite (print_only_prints _ _).
  cbn [stdout mongoclient use_cases map concat]. f_equal.
  rewrite <- ?app_assoc. reflexivity.
Qed.

(** C3, failing input.  When every read returns an empty result, seven use
    cases print a message line of their own under the heading; use case 2,
    which prints its frame without testing [df_sla.empty] as use cases 1,
    5, 7 and 8 test theirs, prints the frame without rows.  On an error it
    prints the error line like the others. *)
Theorem use_case_2_prints_the_empty_frame :
  map (fun use_case => transcript (use_case nothing_found)) use_cases =
    [[Line (nl ++ "[Use Case 1] Insider Threat Detection (Access outside 08:00-20:00)");
      Line ">> No after-hours access detected."];
     [Line (nl ++ "[Use Case 2] SLA Performance KPIs (Avg Response Time)");
      Table (no_rows ["incident_type"; "Avg_Minutes"])];
     [Line (nl ++ "[Use Case 3] Identity Risks (Repeated Failed Logins)");
      Line ">> No users exceeded failure threshold."];
     [Line (nl ++ "[Use Case 4] Phishing Victims (High Risk Clicks)");
      Line ">> Total Users Compromised: 0"];
     [Line (nl ++ "[Use Case 5] Potential Data Exfiltration (> 100MB Transfer)");
      Line ">> No large transfers detected."];
     [Line (nl ++ "[Use Case 6] Impossible Travel Detection");
      Line ">> No log data available."];
     [Line (nl ++ "[Use Case 7] Segregation of Duties (RBAC) Violation");
      Line ">> No RBAC violations detected."];
     [Line (nl ++ "[Use Case 8] Endpoint Vulnerability Management");
      Line ">> All devices healthy."]] /\
  (forall e,
     transcript (use_case_2 (all_failing e)) =
     [Line (nl ++ "[Use Case 2] SLA Performance KPIs (Avg Response Time)");
      Line ("Error: " ++ e)]).
Proof. split; [vm_compute; reflexivity|intros e; reflexivity]. Qed.

(** C4, as amended.  In analysis.py a failure of either call of the
    connection block is reported and ends the run at once, before any
    query; with both calls returning the run finishes whatever the eight
    reads answer.  In setup_all_databases.py a failure to open the row
    store is reported and ends the run at once with status 1.  A failure
    in the block of the document store, be it of the driver's
    installation, of the client or of the first command to the server, is
    reported as a warning, and the run goes on to create and fill the row
    store.  An error of a statement outside the two connection blocks has
    no handler and ends the run with a traceback.  The equations also show
    the status that [exit()] gives in analysis.py, and that after a
    failure of the first command the document part is entered, the name
    [mongoclient] being bound by then. *)
Theorem connection_failures :
  (forall today e MongoClient a,
     run (analysis today (Raised e) MongoClient a) =
     ([Line rule; Line "   SECURITY OPERATIONS CENTER (SOC) REPORT";
       Line ("   Date: " ++ today); Line (rule ++ nl);
       Line ("[CRITICAL] Connection failed: " ++ e)],
      Exited 0)) /\
  (forall today e a,
     run (analysis today (Returned tt) (Raised e) a) =
     ([Line rule; Line "   SECURITY OPERATIONS CENTER (SOC) REPORT";
       Line ("   Date: " ++ today); Line (rule ++ nl);
       Line ("[CRITICAL] Connection failed: " ++ e)],
      Exited 0)) /\
  (forall today a,
     snd (run (analysis today (Returned tt) (Returned tt) a)) = Finished) /\
  (forall stamp e pip cl dr sch pop n m,
     run (setup_all_databases stamp
            {| connect := Raised e; pip_install := pip; client := cl;
               drop := dr; schema := sch; population := pop;
               insert_access_logs := n; insert_phishing := m |}) =
     ([Line ("--- Initialization: " ++ stamp ++ " ---");
       Line ("❌ [SQL] Connection failed: " ++ e)],
      Exited 1)) /\
  (forall stamp e cl dr n m,
     run (setup_all_databases stamp
            {| connect := Returned tt; pip_install := Raised e; client := cl;
               drop := dr; schema := Returned tt; population := Returned tt;
               insert_access_logs := n; insert_phishing := m |}) =
     ([Line ("--- Initialization: " ++ stamp ++ " ---");
       Line "✅ [SQL] Connected to security_db.db";
       Line ("⚠️ [NoSQL] MongoDB not found. Ensure it is running locally on port 27017. Error: " ++ e);
       Line "✅ [SQL] Schema created successfully (including Endpoint_Security).";
       Line "✅ [SQL] Data populated successfully.";
       Line "SETUP COMPLETE: The Hybrid Security System is ready for analysis."],
      Finished)) /\
  (forall stamp e dr n m,
     run (setup_all_databases stamp
            {| connect := Returned tt; pip_install := Returned tt;
               client := Raised e; drop := dr; schema := Returned tt;
               population := Returned tt;
               insert_access_logs := n; insert_phishing := m |}) =
     ([Line ("--- Initialization: " ++ stamp ++ " ---");
       Line "✅ [SQL] Connected to security_db.db";
       Line ("⚠️ [NoSQL] MongoDB not found. Ensure it is running locally on port 27017. Error: " ++ e);
       Line "✅ [SQL] Schema created successfully (including Endpoint_Security).";
       Line "✅ [SQL] Data populated successfully.";
       Line "SETUP COMPLETE: The Hybrid Security System is ready for analysis."],
      Finished)) /\
  (forall stamp e e' m,
     run (setup_all_databases stamp
            {| connect := Returned tt; pip_install := Returned tt;
               client := Returned tt; drop := Raised e; schema := Returned tt;
               population := Returned tt;
               insert_access_logs := Raised e'; insert_phishing := m |}) =
     ([Line ("--- Initialization: " ++ stamp ++ " ---");
       Line "✅ [SQL] Connected to security_db.db";
       Line ("⚠️ [NoSQL] MongoDB not found. Ensure it is running locally on port 27017. Error: " ++ e);
       Line "✅ [SQL] Schema created successfully (including Endpoint_Security).";
       Line "✅ [SQL] Data populated successfully.";
       Line (nl ++ "--- Generating MongoDB Logs ---")],
      Traceback e')) /\
  (forall stamp e n e',
     run (setup_all_databases stamp
            {| connect := Returned tt; pip_install := Returned tt;
               client := Returned tt; drop := Raised e; schema := Returned tt;
               population := Returned tt;
               insert_access_logs := Returned n;
               insert_phishing := Raised e' |}) =
     ([Line ("--- Initialization: " ++ stamp ++ " ---");
       Line "✅ [SQL] Connected to security_db.db";
       Line ("⚠️ [NoSQL] MongoDB not found. Ensure it is running locally on port 27017. Error: " ++ e);
       Line "✅ [SQL] Schema created successfully (including Endpoint_Security).";
       Line "✅ [SQL] Data populated successfully.";
       Line (nl ++ "--- Generating MongoDB Logs ---");
       Line ("✅ [NoSQL] Inserted " ++ str n ++ " records into 'Access_logs'.")],
      Traceback e')) /\
  (forall stamp e n m,
     run (setup_all_databases stamp
            {| connect := Returned tt; pip_install := Returned tt;
               client := Returned tt; drop := Raised e; schema := Returned tt;
               population := Returned tt;
               insert_access_logs := Returned n;
               insert_phishing := Returned m |}) =
     ([Line ("--- Initialization: " ++ stamp ++ " ---");
       Line "✅ [SQL] Connected to security_db.db";
       Line ("⚠️ [NoSQL] MongoDB not found. Ensure it is running locally on port 27017. Error: " ++ e);
       Line "✅ [SQL] Schema created successfully (including Endpoint_Security).";
       Line "✅ [SQL] Data populated successfully.";
       Line (nl ++ "--- Generating MongoDB Logs ---");
       Line ("✅ [NoSQL] Inserted " ++ str n ++ " records into 'Access_logs'.");
       Line ("✅ [NoSQL] Inserted " ++ str m ++ " records into 'Phishing_attacks'.");
       Line "SETUP COMPLETE: The Hybrid Security System is ready for analysis."],
      Finished)) /\
  (forall stamp e pop n m,
     run (setup_all_databases stamp
            {| connect := Returned tt; pip_install := Returned tt;
               client := Returned tt; drop := Returned tt; schema := Raised e;
               population := pop;
               insert_access_logs := n; insert_phishing := m |}) =
     ([Line ("--- Initialization: " ++ stamp ++ " ---");
       Line "✅ [SQL] Connected to security_db.db";
       Line "✅ [NoSQL] Connected to Cybersecurity_Dep (Collections cleared)"],
      Traceback e)).
Proof.
  repeat match goal with |- _ /\ _ => split end.
  - intros today e [|[]] a; reflexivity.
  - reflexivity.
  - intros today a. now rewrite analysis_connected.
  - reflexivity.
  - reflexivity.
  - reflexivity.
  - reflexivity.
  - reflexivity.
  - reflexivity.
  - reflexivity.
Qed.

(** C4, counterexample.  A seeding run in which the document store cannot
    be reached is not ended by that failure: it prints the warning, then
    creates and fills the row store; what ends it, later, is the
    [insert_many] that nothing catches. *)
Lemma setup_goes_on_without_mongo :
  drop (mongo_down "localhost:27017: timed out")
    = Raised "localhost:27017: timed out" /\
  run (setup_all_databases "2026-11-04 10:00:00"
         (mongo_down "localhost:27017: timed out")) =
  ([Line "--- Initialization: 2026-11-04 10:00:00 ---";
    Line "✅ [SQL] Connected to security_db.db";
    Line "⚠️ [NoSQL] MongoDB not found. Ensure it is running locally on port 27017. Error: localhost:27017: timed out";
    Line "✅ [SQL] Schema created successfully (including Endpoint_Security).";
    Line "✅ [SQL] Data populated successfully.";
    Line (nl ++ "--- Generating MongoDB Logs ---")],
   Traceback "localhost:27017: timed out").
Proof. split; reflexivity. Qed.

(** C10, failing input.  A collection in which no document has a LOCATION
    gives a frame without that column: the check raises a KeyError instead
    of taking each country as null, and use case 6 prints the error. *)
Theorem impossible_travel_without_LOCATION :
  (forall d logs,
     impossible_travel (map unlocated (d :: logs)) = Raised "'LOCATION'") /\
  impossible_travel without_LOCATION = Raised "'LOCATION'" /\
  transcript (use_case_6 no_LOCATION_anywhere) =
    [Line (nl ++ "[Use Case 6] Impossible Travel Detection");
     Line "Error: 'LOCATION'"].
Proof.
  split; [|split; reflexivity].
  intros d logs. unfold impossible_travel. cbn [map].
  replace (has_LOCATION (unlocated d :: map unlocated logs)) with false;
    [reflexivity|].
  symmetry. unfold has_LOCATION. cbn [existsb unlocated Access_logs.LOCATION].
  induction logs as [|x logs IH]; [reflexivity|exact IH].
Qed.

(* ===================================================================== *)
(** * Part III: further properties of the checks and of the scripts *)
(* ===================================================================== *)

(** ** Use case 6: how many rows, and in which order *)

Lemma length_adjacent g : length (adjacent g) = pred (length g).
Proof.
  unfold adjacent. rewrite length_combine.
  destruct g as [|a g]; [reflexivity|]. cbn [tl length pred]. lia.
Qed.

(** X1.  A subject with [n] access events has at most [n - 1] flagged rows:
    the first event of a subject is never flagged, and a subject seen once
    is never reported. *)
Theorem jumps_of_bound logs s :
  length (jumps_of s logs) <= pred (length (List.filter (of_subject s) logs)).
Proof.
  rewrite jumps_of_adjacent, length_map.
  etransitivity; [apply filter_length_le|].
  rewrite length_adjacent.
  now rewrite (Permutation_length (stable_sort_perm by_ID_TIMESTAMP _)).
Qed.

Lemma fst_filter_combine_incl {A B : Type} (P : A * B -> bool) (l : list A) :
  forall X, incl (map fst (List.filter P (combine l X))) l.
Proof.
  induction l as [|a l IH]; intros [|x X]; simpl;
    try (intros y []).
  destruct (P (a, x)); simpl.
  - intros y [<-|Hy]; [now left|right; exact (IH X y Hy)].
  - intros y Hy. right. exact (IH X y Hy).
Qed.

Lemma fst_filter_combine_sorted {A B : Type} (R : A -> A -> Prop)
  (P : A * B -> bool) (l : list A) :
  StronglySorted R l ->
  forall X, StronglySorted R (map fst (List.filter P (combine l X))).
Proof.
  induction 1 as [|a l Hl IH Ha]; intros [|x X]; simpl; try constructor.
  destruct (P (a, x)); simpl; [|apply IH].
  constructor; [apply IH|].
  apply List.Forall_forall. intros y Hy.
  rewrite List.Forall_forall in Ha. apply Ha.
  exact (fst_filter_combine_incl P l X y Hy).
Qed.

(** X2.  The frame [impossible] lists events of the collection, in the
    order of [sort_values] (by subject id, then by time).  When the
    collection has a LOCATION column and some row is flagged, use case 6
    prints the alert line with the number of all flagged rows and, under
    it, a table of the first five of them at most: the count and the table
    differ as soon as six rows are flagged. *)
Theorem impossible_keeps_order logs :
  StronglySorted (fun a b => by_ID_TIMESTAMP a b = true)
    (map fst (impossible logs)) /\
  incl (map fst (impossible logs)) logs /\
  length (rows (impossible_head (impossible logs))) =
    Nat.min 5 (length (impossible logs)) /\
  (has_LOCATION logs = true -> impossible logs <> [] ->
   transcript (use_case_6 (reading logs)) =
     [Line (nl ++ "[Use Case 6] Impossible Travel Detection");
      Line (">> ALERT: " ++ str (length (impossible logs))
            ++ " suspicious location jumps detected.");
      Table (impossible_head (impossible logs))]).
Proof.
  split; [|split; [|split]].
  - unfold impossible, with_Prev_Country.
    apply fst_filter_combine_sorted, sort_values_sorted.
  - unfold impossible, with_Prev_Country.
    intros e He. apply fst_filter_combine_incl in He.
    exact (proj1 (stable_sort_In by_ID_TIMESTAMP e logs) He).
  - unfold impossible_head. cbn [rows]. now rewrite length_map, length_firstn.
  - intros Hloc Hflagged.
    assert (Hreport : impossible_travel logs = Returned (Alert (impossible logs))).
    { unfold impossible_travel. destruct logs as [|d logs]; [discriminate Hloc|].
      rewrite Hloc. destruct (impossible (d :: logs)); [congruence|reflexivity]. }
    unfold transcript, run, use_case_6, reading. cbn [find_logs].
    cbv beta iota delta
      [mbind script_bind bind print call try_except error fst snd stdout
       mongoclient].
    rewrite Hreport. reflexivity.
Qed.

(** X2, witness: seven logins of one subject that change country every
    time; six rows are flagged, the alert says 6 and the table has 5
    rows. *)
Lemma impossible_keeps_order_witness :
  length (impossible seven_logins) = 6 /\
  length (rows (impossible_head (impossible seven_logins))) = 5 /\
  transcript (use_case_6 (reading seven_logins)) =
    [Line (nl ++ "[Use Case 6] Impossible Travel Detection");
     Line (">> ALERT: " ++ str (length (impossible seven_logins))
           ++ " suspicious location jumps detected.");
     Table (impossible_head (impossible seven_logins))].
Proof.
  split; [vm_compute; reflexivity|]. split; [vm_compute; reflexivity|].
  apply (proj2 (proj2 (proj2 (impossible_keeps_order seven_logins)))).
  - reflexivity.
  - vm_compute. discriminate.
Defined.

(** ** Use case 6 on freshly seeded logs *)

(** X3.  On the access logs of any seeding run the check neither fails nor
    comes out empty: every seeded document has a LOCATION with a country,
    and the two hand-written entries of EMP001 always yield an alert. *)
Theorem seeded_logs_alert r :
  well_drawn r ->
  exists row others,
    impossible_travel (access_logs_data r) = Returned (Alert (row :: others)).
Proof.
  intros Hr. pose proof (seeded_at_least_one r Hr) as Hone.
  unfold impossible_travel, access_logs_data.
  cbn [has_LOCATION existsb London_entry Access_logs.LOCATION orb].
  fold (London_entry r). fold (access_logs_data r).
  unfold jumps_of in Hone.
  destruct (impossible (access_logs_data r)) as [|row others]; [|eauto].
  simpl in Hone. lia.
Qed.

(** X3, witness. *)
Lemma seeded_logs_alert_witness :
  well_drawn run_without_EMP001_drawn /\
  exists row others,
    impossible_travel (access_logs_data run_without_EMP001_drawn) =
    Returned (Alert (row :: others)).
Proof.
  split; [exact run_without_EMP001_drawn_well_drawn|].
  exact (seeded_logs_alert run_without_EMP001_drawn
           run_without_EMP001_drawn_well_drawn).
Defined.

(** ** Use case 3: what the order of the documents and of the groups changes *)

Lemma failed_logins_perm id docs docs' :
  Permutation docs docs' -> failed_logins id docs = failed_logins id docs'.
Proof.
  unfold failed_logins.
  induction 1 as [|d l l' _ IH|d d' l|l l' l'' _ IH1 _ IH2]; simpl.
  - reflexivity.
  - destruct (_ && _); simpl; now rewrite IH.
  - destruct (String.eqb (Access_logs._ID d) id && is_Failed d);
      destruct (String.eqb (Access_logs._ID d') id && is_Failed d');
      reflexivity.
  - congruence.
Qed.

Lemma group_count_Failed_perm docs docs' :
  Permutation docs docs' ->
  group_count (List.filter is_Failed docs) =
  group_count (List.filter is_Failed docs').
Proof.
  intros Hp. apply map_eq. intros id.
  rewrite !group_count_lookup, <- !failed_logins_occurrences.
  now rewrite (failed_logins_perm id docs docs' Hp).
Qed.

(** Two sorted lists with the same elements are the same list when the
    order tells any two elements apart. *)
Lemma sorted_perm_unique {A : Type} (R : A -> A -> Prop) l : forall l',
  (forall a b, In a l -> In b l -> R a b -> R b a -> a = b) ->
  StronglySorted R l -> StronglySorted R l' -> Permutation l l' -> l = l'.
Proof.
  induction l as [|a l IH]; intros l' Hanti Hl Hl' Hperm.
  - apply Permutation_nil in Hperm. now subst.
  - destruct l' as [|b l'];
      [apply Permutation_sym, Permutation_nil in Hperm; discriminate|].
    apply StronglySorted_inv in Hl as [Hl Ha].
    apply StronglySorted_inv in Hl' as [Hl' Hb].
    assert (Hab : a = b).
    { assert (Hin_a : In a (b :: l'))
        by (apply (Permutation_in a Hperm); now left).
      assert (Hin_b : In b (a :: l))
        by (apply (Permutation_in b (Permutation_sym Hperm)); now left).
      destruct Hin_a as [->|Hin_a]; [reflexivity|].
      destruct Hin_b as [->|Hin_b]; [reflexivity|].
      apply Hanti; [now left|now right| |].
      - exact (proj1 (List.Forall_forall _ _) Ha b Hin_b).
      - exact (proj1 (List.Forall_forall _ _) Hb a Hin_a). }
    subst b. f_equal. apply IH; try assumption.
    + intros x y Hx Hy. apply Hanti; now right.
    + exact (Permutation_cons_inv Hperm).
Qed.

Lemma count_desc_sorted_counts result :
  StronglySorted (fun a b => count_desc a b = true) result ->
  StronglySorted (fun x y => y <= x) (map snd result).
Proof.
  induction 1 as [|a l Hl IH Ha]; cbn [map]; constructor; [assumption|].
  apply List.Forall_forall. intros y Hy.
  apply in_map_iff in Hy as (b & <- & Hb).
  pose proof (proj1 (List.Forall_forall _ _) Ha b Hb) as Hab.
  unfold count_desc in Hab. now apply Nat.leb_le in Hab.
Qed.

Lemma NoDup_map_In_inj {A B : Type} (f : A -> B) l a b :
  List.NoDup (map f l) -> In a l -> In b l -> f a = f b -> a = b.
Proof.
  induction l as [|x l IH]; cbn [map]; [intros _ []|].
  intros Hnd Ha Hb Hf. apply List.NoDup_cons_iff in Hnd as [Hx Hnd].
  destruct Ha as [->|Ha], Hb as [->|Hb]; try reflexivity.
  - exfalso. apply Hx. rewrite Hf. now apply in_map.
  - exfalso. apply Hx. rewrite <- Hf. now apply in_map.
  - now apply IH.
Qed.

Lemma pipeline_is_result docs : pipeline_result docs (pipeline docs).
Proof.
  split.
  - apply stable_sort_perm.
  - apply stable_sort_sorted; [exact count_desc_total|exact count_desc_trans].
Qed.

(** X4.  The answer to the repeated-failed-logins pipeline depends on the
    order of the documents and on the server's choices only where two
    reported subjects have the same count: any two answers, also for two
    arrangements of the collection, hold the same rows and the same
    sequence of counts, and are the same list when no count occurs
    twice. *)
Theorem pipeline_order_free docs docs' result result' :
  Permutation docs docs' ->
  pipeline_result docs result -> pipeline_result docs' result' ->
  Permutation result result' /\
  map snd result = map snd result' /\
  (List.NoDup (map snd result) -> result = result').
Proof.
  intros Hdocs [Hperm Hsorted] [Hperm' Hsorted'].
  rewrite <- (group_count_Failed_perm docs docs' Hdocs) in Hperm'.
  assert (Hsame : Permutation result result').
  { eapply Permutation_trans; [exact Hperm|].
    apply Permutation_sym. exact Hperm'. }
  split; [exact Hsame|]. split.
  - apply (sorted_perm_unique (fun x y => y <= x)).
    + intros x y _ _ Hxy Hyx. lia.
    + now apply count_desc_sorted_counts.
    + now apply count_desc_sorted_counts.
    + now apply Permutation_map.
  - intros Hnd.
    apply (sorted_perm_unique (fun a b => count_desc a b = true));
      try assumption.
    intros a b Ha Hb Hab Hba. unfold count_desc in Hab, Hba.
    apply Nat.leb_le in Hab, Hba.
    apply (NoDup_map_In_inj snd result); try assumption. lia.
Qed.

(** X4, witness: two subjects tied at two failures, reported in either
    order. *)
Lemma pipeline_order_free_witness :
  Permutation [("EMP001", 2); ("EMP002", 2)] [("EMP002", 2); ("EMP001", 2)] /\
  map snd [("EMP001", 2); ("EMP002", 2)] = map snd [("EMP002", 2); ("EMP001", 2)] /\
  (List.NoDup (map snd [("EMP001", 2); ("EMP002", 2)]) ->
   [("EMP001", 2); ("EMP002", 2)] = [("EMP002", 2); ("EMP001", 2)]).
Proof.
  apply (pipeline_order_free tied_logins (rev tied_logins)).
  - apply Permutation_rev.
  - split; [vm_compute|repeat constructor].
    first [reflexivity | apply perm_swap].
  - split; [vm_compute|repeat constructor].
    first [apply perm_swap | reflexivity].
Defined.

(** ** The Error lines of a run of analysis.py *)

Lemma errors_app out out' : errors (out ++ out') = (errors out ++ errors out')%list.
Proof. apply flat_map_app. Qed.

Lemma frame_errors (heading nothing : string) (read : outcome DataFrame) :
  strip "Error: " heading = None ->
  strip "Error: " nothing = None ->
  errors
    (transcript
       (print (Line heading);;
        try_except
          (df ← call read;
           if negb (empty df) then print (Table df) else print (Line nothing))
          error)) =
  messages [raised_by read].
Proof.
  intros Hh Hn. destruct read as [e|df].
  - cbv beta iota delta
      [mbind script_bind bind print call try_except error transcript run
       fst snd stdout mongoclient errors flat_map app raised_by messages].
    now rewrite Hh.
  - cbv beta iota delta
      [mbind script_bind bind print call try_except error transcript run
       fst snd stdout mongoclient raised_by messages].
    destruct (empty df); cbn [negb stdout app errors flat_map];
      now rewrite Hh, ?Hn.
Qed.

Lemma use_case_errors a :
  map (fun use_case => errors (transcript (use_case a))) use_cases =
  map (fun f => messages [f]) (failures a).
Proof.
  destruct a as [r1 r2 r3 r4 r5 r6 r7 r8].
  unfold use_cases, failures.
  cbn [map read_insider read_sla aggregate count_phish read_exfil find_logs
       read_rbac read_vuln].
  repeat f_equal.
  - now apply frame_errors.
  - destruct r2; reflexivity.
  - destruct r3 as [e|[|r results]]; reflexivity.
  - destruct r4; reflexivity.
  - now apply frame_errors.
  - destruct r6 as [e|logs]; [reflexivity|].
    unfold use_case_6. cbn [find_logs].
    cbv beta iota delta
      [mbind script_bind bind print call try_except error transcript run
       fst snd stdout mongoclient].
    destruct (impossible_travel logs) as [e|[| |flagged]]; reflexivity.
  - now apply frame_errors.
  - destruct r8 as [e|df]; [reflexivity|].
    unfold use_case_8. cbn [read_vuln].
    cbv beta iota delta
      [mbind script_bind bind print call try_except error transcript run
       fst snd stdout mongoclient].
    destruct (empty df); reflexivity.
Qed.

Lemma errors_concat outs : errors (concat outs) = concat (map errors outs).
Proof.
  induction outs as [|o outs IH]; simpl; [reflexivity|].
  now rewrite errors_app, IH.
Qed.

Lemma messages_concat fs : concat (map (fun f => messages [f]) fs) = messages fs.
Proof.
  induction fs as [|f fs IH]; [reflexivity|].
  cbn [map concat]. rewrite IH. unfold messages. cbn [flat_map].
  now rewrite app_nil_r.
Qed.

(** X5.  With both connections open, the lines "Error: ..." of a run are
    exactly the messages of the use cases whose [try] body raised, one line
    each and in the order of the use cases; a use case that raises nothing
    prints no such line. *)
Theorem error_lines_are_failures today a :
  errors (fst (run (analysis today (Returned tt) (Returned tt) a))) =
  messages (failures a).
Proof.
  rewrite analysis_connected. cbn [fst].
  rewrite !errors_app, errors_concat, map_map, use_case_errors, messages_concat.
  change (errors (preamble today)) with (@nil string).
  change (errors closing) with (@nil string).
  now rewrite app_nil_r.
Qed.

(** ** How a run of setup_all_databases.py ends *)

(** X6.  A seeding run finishes exactly when the row store opens, the
    schema and the population go through and, in case the MongoDB client
    was created, both [insert_many] return; the line "SETUP COMPLETE" is
    printed exactly in the runs that finish; the exit status is 0 when the
    run finishes and 1 otherwise, and the run is ended by [sys.exit],
    rather than by a traceback, exactly when the row store cannot be
    opened. *)
Theorem setup_ending stamp s :
  finished (snd (run (setup_all_databases stamp s))) =
    returned (connect s) && returned (schema s) && returned (population s) &&
    (negb (returned (pip_install s) && returned (client s)) ||
     returned (insert_access_logs s) && returned (insert_phishing s)) /\
  existsb
    (is_line "SETUP COMPLETE: The Hybrid Security System is ready for analysis.")
    (fst (run (setup_all_databases stamp s))) =
    finished (snd (run (setup_all_databases stamp s))) /\
  exit_status (snd (run (setup_all_databases stamp s))) =
    (if finished (snd (run (setup_all_databases stamp s))) then 0 else 1)%Z /\
  exited (snd (run (setup_all_databases stamp s))) =
    negb (returned (connect s)).
Proof.
  destruct s as [c p cl d sc po i1 i2].
  destruct c, p, cl, d, sc, po, i1, i2; repeat split; reflexivity.
Qed.

(* ===================================================================== *)
(** ** The row store after the seeding script *)

Lemma randint_range lo hi raw :
  (lo <= hi)%Z -> (lo <= randint lo hi raw <= hi)%Z.
Proof.
  intros Hle. unfold randint.
  pose proof (Z.mod_pos_bound (Z.of_nat raw) (hi - lo + 1)) as Hm. lia.
Qed.

(** Each range of [role_ranges] is the range of the role ids that
    [department_roles] gives the department. *)
Lemma role_ranges_department_roles d lo hi :
  item role_ranges d = Some (lo, hi) ->
  (lo <= hi)%Z /\
  exists roles, item department_roles d = Some roles /\
    forall r, (lo <= r <= hi)%Z -> references (map fst roles) r = true.
Proof.
  unfold item, role_ranges, department_roles. cbn [List.find fst snd].
  repeat
    (match goal with
     | |- context [String.eqb ?s d] =>
         destruct (String.eqb_spec s d) as [<-|_]
     end;
     [ cbn; intros [= <- <-]; split; [lia|];
       eexists; split; [reflexivity|];
       intros r Hr;
       repeat (match goal with
               | H : (?a <= r <= ?b)%Z |- _ =>
                   destruct (Z.eq_dec r a) as [->|];
                   [reflexivity | assert (a + 1 <= r <= b)%Z by lia; clear H]
               end); lia
     | ]).
  cbn [option_map]. discriminate.
Qed.

Lemma assign_roles_ids g es : forall k,
  employee_ids_of (assign_roles g k es) = employee_ids_of es.
Proof.
  unfold employee_ids_of.
  induction es as [|e es IH]; intros k; [reflexivity|].
  cbn [assign_roles].
  destruct (item role_ranges (Employee_Data.Department e)) as [[lo hi]|];
    cbn [map]; rewrite IH; reflexivity.
Qed.

(** X7.  The loop that draws the roles leaves every employee of a
    department of [role_ranges] with a role that [department_roles] lists
    for that very department, whatever the generator yields, and changes
    nothing else of the row; an employee of another department is left as
    it is. *)
Theorem assign_roles_own_department g es : forall k,
  Forall2
    (fun e e' =>
       match item role_ranges (Employee_Data.Department e) with
       | Some _ => same_but_role e e' /\ role_of_own_department e' = true
       | None => e' = e
       end)
    es (assign_roles g k es).
Proof.
  induction es as [|e es IH]; intros k; [constructor|].
  cbn [assign_roles].
  destruct (item role_ranges (Employee_Data.Department e)) as [[lo hi]|] eqn:E.
  - constructor; [|apply IH]. rewrite E.
    destruct (role_ranges_department_roles _ _ _ E) as [Hle [roles [Hr Hin]]].
    split; [reflexivity|].
    unfold role_of_own_department. cbn [with_role Employee_Data.Department
      Employee_Data.role_ID]. rewrite Hr.
    apply Hin, randint_range, Hle.
  - constructor; [rewrite E; reflexivity|apply IH].
Qed.

Lemma pair_eqb_eq a b : pair_eqb a b = true <-> a = b.
Proof.
  destruct a as [a1 a2], b as [b1 b2]. unfold pair_eqb. cbn [fst snd].
  rewrite andb_true_iff, !Z.eqb_eq. split; [intros [-> ->]|intros [= -> ->]]; auto.
Qed.

Lemma existsb_pair_eqb rp t : existsb (pair_eqb rp) t = true <-> In rp t.
Proof.
  rewrite existsb_exists. split.
  - intros [x [Hin Hx]]. apply pair_eqb_eq in Hx. now subst.
  - intros Hin. exists rp. split; [assumption|now apply pair_eqb_eq].
Qed.

(** The COUNT of the guard is 0 exactly when the pair is not in the
    table. *)
Lemma count_Roles_Permissions_0 t rp :
  (count_Roles_Permissions t rp =? 0)%nat = negb (existsb (pair_eqb rp) t).
Proof.
  unfold count_Roles_Permissions.
  induction t as [|x t IH]; [reflexivity|].
  cbn [List.filter existsb]. destruct (pair_eqb rp x); [reflexivity|].
  exact IH.
Qed.

Lemma NoDup_snoc {A : Type} (x : A) t :
  List.NoDup t -> ~ In x t -> List.NoDup (t ++ [x])%list.
Proof.
  induction 1 as [|y t Hy Ht IH]; intros Hx; cbn [app].
  - constructor; [intros []|constructor].
  - constructor.
    + rewrite in_app_iff. intros [Hin|[->|[]]]; [now apply Hy|].
      apply Hx. now left.
    + apply IH. intros Hin. apply Hx. now right.
Qed.

Lemma link_role_returns role_ids permission_ids role_id permissions :
  references role_ids role_id = true -> int64 role_id = true ->
  List.Forall
    (fun p => references permission_ids p = true /\ int64 p = true)
    permissions ->
  forall t, List.NoDup t ->
  exists new,
    link_role role_ids permission_ids t role_id permissions
    = Returned (t ++ new)%list /\
    List.NoDup (t ++ new)%list /\
    List.Forall
      (fun rp => references role_ids (fst rp) = true /\
                 references permission_ids (snd rp) = true) new.
Proof.
  intros Hrole Hint Hperms.
  induction Hperms as [|p ps [Hp Hpint] _ IH]; intros t Ht.
  - exists []. rewrite app_nil_r. repeat split; [assumption|constructor].
  - cbn [link_role]. rewrite Hint, Hpint. cbn [andb].
    rewrite count_Roles_Permissions_0.
    destruct (existsb (pair_eqb (role_id, p)) t) eqn:E; cbn [negb].
    + apply IH, Ht.
    + unfold insert_Roles_Permissions. rewrite E. cbn [fst snd].
      rewrite Hrole, Hp. cbn [andb mbind outcome_bind].
      assert (Hnew : List.NoDup (t ++ [(role_id, p)])%list).
      { apply NoDup_snoc; [assumption|].
        intros Hin. apply existsb_pair_eqb in Hin. congruence. }
      destruct (IH _ Hnew) as [new [Hrun [Hnd Hall]]].
      exists ((role_id, p) :: new). rewrite <- app_assoc in Hrun, Hnd.
      repeat split; try assumption. constructor; [split|]; assumption.
Qed.

Lemma link_permissions_spec employees role_ids permission_ids items :
  List.Forall
    (fun e => references role_ids (Employee_Data.role_ID e) = true /\
              int64 (Employee_Data.role_ID e) = true)
    employees ->
  List.Forall
    (fun it => length (split (fst it)) = 2 /\
               List.Forall
                 (fun p => references permission_ids p = true /\
                           int64 p = true)
                 (snd it))
    items ->
  forall t, List.NoDup t ->
  exists new,
    link_permissions employees role_ids permission_ids t items
    = Returned (t ++ new)%list /\
    List.NoDup (t ++ new)%list /\
    List.Forall
      (fun rp => references role_ids (fst rp) = true /\
                 references permission_ids (snd rp) = true) new.
Proof.
  intros Hemployees Hitems.
  induction Hitems as [|[full_name permissions] items [Hname Hperms] _ IH];
    intros t Ht.
  - exists []. rewrite app_nil_r. repeat split; [assumption|constructor].
  - cbn [link_permissions]. cbn [fst snd] in Hname, Hperms.
    destruct (split full_name) as [|first_name [|last_name [|? ?]]];
      try discriminate Hname.
    match goal with
    | |- context [List.find ?f employees] =>
        destruct (List.find f employees) as [e|] eqn:Hfind
    end.
    + apply find_some in Hfind as [Hin _].
      pose proof (proj1 (List.Forall_forall _ _) Hemployees e Hin) as Hrole.
      cbv beta in Hrole. destruct Hrole as [Hrole Hint].
      destruct (link_role_returns _ _ _ _ Hrole Hint Hperms t Ht)
        as [new [Hrun [Hnd Hall]]].
      rewrite Hrun. cbn [mbind outcome_bind].
      destruct (IH _ Hnd) as [new' [Hrun' [Hnd' Hall']]].
      exists (new ++ new')%list. rewrite <- app_assoc in Hrun', Hnd'.
      repeat split; try assumption. apply Forall_app; split; assumption.
    + apply IH, Ht.
Qed.

(** X8.  When every employee holds a role of the table Roles, every name
    of the dict is two words for [str.split()], every permission listed is
    in the table Permissions and all these ids are 64-bit integers, the
    loop that links permissions to roles returns: it only adds rows, the
    added rows refer to existing roles and permissions, and a table
    without duplicate pairs stays so. *)
Theorem link_permissions_returns employees role_ids permission_ids items t :
  List.NoDup t ->
  List.Forall
    (fun e => references role_ids (Employee_Data.role_ID e) = true /\
              int64 (Employee_Data.role_ID e) = true)
    employees ->
  List.Forall
    (fun it => length (split (fst it)) = 2 /\
               List.Forall
                 (fun p => references permission_ids p = true /\
                           int64 p = true)
                 (snd it))
    items ->
  exists new,
    link_permissions employees role_ids permission_ids t items
    = Returned (t ++ new)%list /\
    List.NoDup (t ++ new)%list /\
    List.Forall
      (fun rp => references role_ids (fst rp) = true /\
                 references permission_ids (snd rp) = true) new.
Proof.
  intros Ht Hemployees Hitems.
  exact (link_permissions_spec _ _ _ _ Hemployees Hitems t Ht).
Qed.

(** X8, witness: two employees who share a role and a permission, and a
    name no employee bears. *)
Lemma link_permissions_returns_witness :
  exists new,
    link_permissions
      [employee_row 1 ("Alice", "Johnson", "Finance", "a@bank.com", 1%Z);
       employee_row 2 ("Bob", "Smith", "Finance", "b@bank.com", 1%Z)]
      [1%Z; 2%Z] [5%Z; 6%Z; 7%Z] [(2%Z, 5%Z)]
      [("Alice Johnson", [6%Z; 5%Z]); ("Bob Smith", [5%Z; 7%Z]);
       ("Carol Jones", [7%Z])]
    = Returned ([(2%Z, 5%Z)] ++ new)%list /\
    List.NoDup ([(2%Z, 5%Z)] ++ new)%list /\
    List.Forall
      (fun rp => references [1%Z; 2%Z] (fst rp) = true /\
                 references [5%Z; 6%Z; 7%Z] (snd rp) = true) new.
Proof.
  apply link_permissions_returns.
  - constructor; [intros []|constructor].
  - repeat constructor.
  - repeat constructor.
Defined.




Lemma assign_roles_In g es : forall k e',
  In e' (assign_roles g k es) ->
  exists e, In e es /\
    match item role_ranges (Employee_Data.Department e) with
    | Some _ => role_of_own_department e' = true
    | None => e' = e
    end.
Proof.
  induction es as [|e es IH]; intros k e'; [intros []|].
  cbn [assign_roles].
  destruct (item role_ranges (Employee_Data.Department e)) as [[lo hi]|] eqn:E;
    (intros [<-|Hin];
     [ exists e; split; [now left|]; rewrite E
     | destruct (IH _ _ Hin) as [e0 [Hin0 H0]]; exists e0; split;
       [now right|exact H0] ]).
  - destruct (role_ranges_department_roles _ _ _ E) as [Hle [roles [Hr Hin]]].
    unfold role_of_own_department. cbn [with_role Employee_Data.Department
      Employee_Data.role_ID]. rewrite Hr.
    apply Hin, randint_range, Hle.
  - reflexivity.
Qed.

(** A role of the own department is a role of the table Roles, and a
    64-bit integer. *)
Lemma own_department_role_exists e roles :
  insert_department_roles [] department_roles = Returned roles ->
  role_of_own_department e = true ->
  references (map fst roles) (Employee_Data.role_ID e) = true /\
  int64 (Employee_Data.role_ID e) = true.
Proof.
  intros [= <-]. unfold role_of_own_department, item, department_roles.
  cbn [List.find fst snd].
  generalize (Employee_Data.Department e) (Employee_Data.role_ID e).
  intros d r.
  repeat
    (match goal with
     | |- context [String.eqb ?s d] => destruct (String.eqb s d)
     end;
     [ cbn [option_map snd map fst]; unfold references;
       rewrite existsb_exists; intros [x [Hin Hx]];
       apply Z.eqb_eq in Hx; subst x;
       cbn [In] in Hin;
       repeat (destruct Hin as [<-|Hin]; [split; reflexivity|]); destruct Hin
     | ]).
  cbn [option_map]. discriminate.
Qed.

Lemma seeded_roles g :
  List.Forall (fun e => role_of_own_department e = true)
    (assign_roles g 0 employees_inserted).
Proof.
  apply List.Forall_forall. intros e' Hin.
  destruct (assign_roles_In _ _ _ _ Hin) as [e [He Hrole]].
  assert (Hknown :
    forallb (fun e => match item role_ranges (Employee_Data.Department e) with
                      | Some _ => true | None => false end)
      employees_inserted = true) by (vm_compute; reflexivity).
  rewrite forallb_forall in Hknown. specialize (Hknown e He).
  destruct (item role_ranges (Employee_Data.Department e));
    [assumption|discriminate].
Qed.

Lemma insert_checked_returns {A : Type} (ok : A -> bool) rows :
  forallb ok rows = true -> insert_checked ok rows = Returned rows.
Proof. unfold insert_checked. now intros ->. Qed.

Lemma bind_Returned {A B : Type} (m : outcome A) (f : A -> outcome B) a :
  m = Returned a -> mbind f m = f a.
Proof. now intros ->. Qed.

(** What Section B leaves in the row store, table by table. *)
Lemma data_population_tables g :
  exists s,
    data_population g = Returned s /\
    Employee_Data_s s = assign_roles g 0 employees_inserted /\
    Endpoint_Security_s s = numbered endpoint_row 1 endpoint_data /\
    File_Data_s s = FileName /\
    File_Access_s s = FileAccess /\
    Network_Usage_s s = NetworkInfo /\
    Security_Incidents_s s = Security_Incidents_rows /\
    Incident_Response_s s = Incident_Response_rows /\
    Protocol_Data_s s = Protocol_Data_rows /\
    Access_Type_s s = Access_Type_rows /\
    Permissions_s s = Permissions_rows /\
    insert_department_roles [] department_roles = Returned (Roles_s s) /\
    List.NoDup (Roles_Permissions_s s) /\
    List.Forall
      (fun rp => references (map fst (Roles_s s)) (fst rp) = true /\
                 references (map fst (Permissions_s s)) (snd rp) = true)
      (Roles_Permissions_s s).
Proof.
  destruct (insert_department_roles [] department_roles) as [e|roles] eqn:Hroles;
    [discriminate Hroles|].
  destruct (link_permissions_spec (assign_roles g 0 employees_inserted)
              (map fst roles) (map fst Permissions_rows)
              permissions_for_employees) with (t := @nil (Z * Z))
    as [new [Hrun [Hnd Hall]]].
  - eapply List.Forall_impl; [|apply seeded_roles].
    intros e. apply own_department_role_exists, Hroles.
  - repeat constructor.
  - constructor.
  - unfold data_population. cbv zeta. rewrite !assign_roles_ids.
    rewrite Hroles.
    erewrite bind_Returned;
      [|apply insert_checked_returns; vm_compute; reflexivity].
    cbv beta.
    erewrite bind_Returned; [|reflexivity].
    cbv beta.
    rewrite (bind_Returned _ _ _ Hrun).
    cbv beta.
    erewrite bind_Returned;
      [|apply insert_checked_returns; vm_compute; reflexivity].
    cbv beta.
    erewrite bind_Returned;
      [|apply insert_checked_returns; vm_compute; reflexivity].
    cbv beta.
    erewrite bind_Returned;
      [|apply insert_checked_returns; vm_compute; reflexivity].
    cbv beta.
    erewrite bind_Returned;
      [|apply insert_checked_returns; vm_compute; reflexivity].
    cbv beta.
    (eexists; split; [reflexivity|]).
    cbn [Employee_Data_s Endpoint_Security_s File_Data_s File_Access_s
         Network_Usage_s Security_Incidents_s Incident_Response_s
         Protocol_Data_s Access_Type_s Permissions_s Roles_s
         Roles_Permissions_s].
    repeat (split; [reflexivity|]). (split; assumption).
Qed.

Lemma assign_roles_length g es : forall k,
  length (assign_roles g k es) = length es.
Proof.
  induction es as [|e es IH]; intros k; [reflexivity|].
  cbn [assign_roles].
  destruct (item role_ranges (Employee_Data.Department e)) as [[lo hi]|];
    cbn [length]; rewrite IH; reflexivity.
Qed.

(** X10.  Section B of the seeding script returns whatever the random
    generator yields: no INSERT breaks a key.  In the row store it leaves,
    every FOREIGN KEY clause of the schema holds, Roles_Permissions has no
    pair twice, and each of the 60 employees holds a role of the own
    department. *)
Theorem data_population_returns g :
  exists s,
    data_population g = Returned s /\
    foreign_keys_hold s = true /\
    List.NoDup (Roles_Permissions_s s) /\
    length (Employee_Data_s s) = 60 /\
    forallb role_of_own_department (Employee_Data_s s) = true.
Proof.
  destruct (data_population_tables g)
    as [s [Hrun [Hemp [Hend [Hfile [Hacc [Hnet [Hinc [Hresp [Hproto [Htype
         [Hperm [Hroles [Hnd Hall]]]]]]]]]]]]]].
  exists s. split; [exact Hrun|]. split; [|split; [exact Hnd|split]].
  - unfold foreign_keys_hold.
    rewrite Hemp, Hend, Hfile, Hacc, Hnet, Hinc, Hresp, Hproto, Htype.
    rewrite assign_roles_ids.
    repeat (apply andb_true_intro; split); try (vm_compute; reflexivity).
    apply forallb_forall. intros rp Hin.
    destruct (proj1 (List.Forall_forall _ _) Hall rp Hin) as [H1 H2].
    now rewrite H1, H2.
  - rewrite Hemp, assign_roles_length. reflexivity.
  - rewrite Hemp. apply forallb_forall. intros e He.
    exact (proj1 (List.Forall_forall _ _) (seeded_roles g) e He).
Qed.

(** X11.  On the row store that the seeding script leaves, the three
    checks of the analysis that read the tables modelled here give the
    same report on every run: what is drawn at random does not reach
    them. *)
Theorem seeded_reports g :
  exists s,
    data_population g = Returned s /\
    query_insider (database_of s)
    = Some [("Grace Moore", "IT", "2024-03-25 07:32:15");
            ("Olivia Garcia", "Operations", "2024-03-25 21:24:46");
            ("Liam Harris", "IT", "2024-03-25 22:23:39")] /\
    query_rbac (database_of s)
    = [("Olivia Garcia", "Operations", "Budget_Overview_2024.xlsx");
       ("Daniel Baker", "Operations", "Payroll_Data_2024.csv");
       ("Liam Harris", "IT", "Marketing_Budgets_2024.xlsx")] /\
    query_vuln (database_of s)
    = [("David Wilson", Some "Windows", Some "7", Some "Expired");
       ("Frank Miller", Some "Windows", Some "10", Some "Disabled");
       ("Isaac Anderson", Some "Windows", Some "XP", Some "Expired")].
Proof.
  destruct (data_population_tables g)
    as [s [Hrun [Hemp [Hend [Hfile [Hacc _]]]]]].
  exists s. split; [exact Hrun|].
  unfold database_of. rewrite Hemp, Hend, Hfile, Hacc.
  repeat split; vm_compute; reflexivity.
Qed.

(* ===================================================================== *)
(** ** Use case 6 and the order in which the documents are read *)

Lemma by_ID_TIMESTAMP_antisym a b :
  by_ID_TIMESTAMP a b = true -> by_ID_TIMESTAMP b a = true ->
  Access_logs._ID a = Access_logs._ID b /\
  Access_logs.TIMESTAMP a = Access_logs.TIMESTAMP b.
Proof.
  unfold by_ID_TIMESTAMP.
  rewrite (String.compare_antisym (Access_logs._ID a) (Access_logs._ID b)).
  destruct (String.compare (Access_logs._ID b) (Access_logs._ID a)) eqn:E;
    cbn [CompOpp]; try discriminate.
  apply String.compare_eq_iff in E. rewrite !Z.leb_le. intros H1 H2.
  split; [now symmetry|lia].
Qed.

Lemma has_LOCATION_perm logs logs' :
  Permutation logs logs' -> has_LOCATION logs = has_LOCATION logs'.
Proof.
  intros Hperm. unfold has_LOCATION.
  apply eq_true_iff_eq. rewrite !existsb_exists.
  split; intros [d [Hin Hd]]; exists d; split; try assumption.
  - exact (Permutation_in d Hperm Hin).
  - exact (Permutation_in d (Permutation_sym Hperm) Hin).
Qed.

(** X12.  When no two different documents of one subject bear the same
    timestamp, the outcome of use case 6 does not depend on the order in
    which the collection returns the documents. *)
Theorem impossible_travel_order_free logs logs' :
  Permutation logs logs' ->
  (forall a b, In a logs -> In b logs ->
     Access_logs._ID a = Access_logs._ID b ->
     Access_logs.TIMESTAMP a = Access_logs.TIMESTAMP b -> a = b) ->
  impossible_travel logs = impossible_travel logs'.
Proof.
  intros Hperm Hdistinct.
  assert (Hsort : sort_values logs = sort_values logs').
  { apply (sorted_perm_unique (fun a b => by_ID_TIMESTAMP a b = true)).
    - intros a b Ha Hb Hab Hba.
      destruct (by_ID_TIMESTAMP_antisym a b Hab Hba) as [Hid Hts].
      apply Hdistinct; try assumption.
      + exact (proj1 (stable_sort_In by_ID_TIMESTAMP a logs) Ha).
      + exact (proj1 (stable_sort_In by_ID_TIMESTAMP b logs) Hb).
    - apply sort_values_sorted.
    - apply sort_values_sorted.
    - unfold sort_values.
      eapply Permutation_trans; [apply stable_sort_perm|].
      eapply Permutation_trans; [exact Hperm|].
      apply Permutation_sym, stable_sort_perm. }
  unfold impossible_travel, impossible.
  rewrite <- Hsort, <- (has_LOCATION_perm _ _ Hperm).
  destruct logs as [|d logs].
  - apply Permutation_nil in Hperm. now subst.
  - destruct logs' as [|d' logs'];
      [apply Permutation_sym, Permutation_nil in Hperm; discriminate|].
    reflexivity.
Qed.

(** X12, witness: the planted pair of logins of EMP001, read in either
    order. *)
Lemma impossible_travel_order_free_witness :
  impossible_travel
    [access_log "EMP001" 1 (Some (Dict (location "London" "UK")));
     access_log "EMP001" 2 (Some (Dict (location "Tokyo" "Japan")))]
  = impossible_travel
      [access_log "EMP001" 2 (Some (Dict (location "Tokyo" "Japan")));
       access_log "EMP001" 1 (Some (Dict (location "London" "UK")))].
Proof.
  apply impossible_travel_order_free.
  - apply perm_swap.
  - intros a b [<-|[<-|[]]] [<-|[<-|[]]] _ Hts;
      first [reflexivity | discriminate Hts].
Defined.
